(** * ml-tasks: the digits evaluation pipeline

    A shallow embedding of the repository's Python modules

      - [models/kmeans_clusterer.py]               (Module [KMeansClusterer])
      - [models/logistic_regression_classifier.py] (Module [LogisticRegressionClassifier])
      - [data_loader.py]                           (Module [DigitsDataLoader])
      - [visualizer.py]                            (Module [DataVisualizer])
      - [main.py]                                  (Module [Main])

    together with the small part of numpy, scipy, scikit-learn and
    matplotlib that these modules call.  Arrays are lists, integer labels
    and cluster indices are [nat], Python exceptions are the [Raise] case
    of [result], and the plotting backend is a state threaded through a
    state-and-exception monad.  Floating-point coordinates stay abstract
    (a type [F]); an accuracy is the exact fraction it stands for. *)

From Stdlib Require Import QArith Qround.
From stdpp Require Import base decidable numbers strings option list gmap.
Close Scope Q_scope.

(** ** Exceptions and results *)

Inductive exception :=
| ValueError        (* also sklearn's InvalidParameterError, its subclass *)
| IndexError
| AttributeError
| NotFittedError
| QhullError
| OSError.

Inductive result (A : Type) : Type :=
| Ok (a : A)
| Raise (e : exception).
Arguments Ok {A} a.
Arguments Raise {A} e.

#[global] Instance result_ret : MRet result := λ A, Ok.
#[global] Instance result_bind : MBind result :=
  λ A B f m, match m with Ok a => f a | Raise e => Raise e end.
#[global] Instance result_fmap : FMap result :=
  λ A B f m, match m with Ok a => Ok (f a) | Raise e => Raise e end.

(** [for x in xs: s = body x s], stopping at the first exception. *)
Fixpoint for_in {A S : Type} (xs : list A) (body : A → S → result S) (s : S)
  : result S :=
  match xs with
  | [] => Ok s
  | x :: xs => s' ← body x s; for_in xs body s'
  end.

(** A Python float that is either nan or the rational it stands for. *)
Inductive score :=
| NaN
| Score (q : Q).

(** ** numpy *)

Module np.

(** [np.zeros_like(a)] *)
Definition zeros_like (a : list nat) : list nat := replicate (length a) 0.

(** [a == i], element-wise *)
Definition eq_mask (a : list nat) (i : nat) : list bool :=
  (λ c, bool_decide (c = i)) <$> a.

(** [np.any(mask)] *)
Definition any (mask : list bool) : bool := existsb id mask.

(** [np.sum(mask)]: the number of [True] entries *)
Definition sum (mask : list bool) : nat := length (filter (λ b, b = true) mask).

(** The entries of [a] at the positions where [mask] holds. *)
Fixpoint compress {A : Type} (mask : list bool) (a : list A) : list A :=
  match mask, a with
  | b :: mask, x :: a => if b then x :: compress mask a else compress mask a
  | _, _ => []
  end.

(** [a[mask]] for a boolean [mask]: the index must be as long as the
    array, otherwise numpy raises IndexError. *)
Definition getitem {A : Type} (a : list A) (mask : list bool) : result (list A) :=
  if bool_decide (length mask = length a) then Ok (compress mask a)
  else Raise IndexError.

(** [a[mask] = v] for a scalar [v], returning the updated array. *)
Definition setitem (a : list nat) (mask : list bool) (v : nat) : result (list nat) :=
  if bool_decide (length mask = length a)
  then Ok (zip_with (λ (b : bool) x, if b then v else x) mask a)
  else Raise IndexError.

(** [np.unique(a)]: the sorted distinct values of [a]. *)
Definition unique (a : list nat) : list nat :=
  filter (λ v, v ∈ a) (seq 0 (S (max_list a))).

(** [a.argmax()]: the first position of the largest entry. *)
Definition argmax (a : list nat) : nat :=
  default 0 (fst <$> list_find (λ c, c = max_list a) a).

(** [np.average(mask)] of a boolean array: nan on the empty array. *)
Definition average (mask : list bool) : score :=
  match mask with
  | [] => NaN
  | _ => Score (Z.of_nat (sum mask) # Pos.of_nat (length mask))
  end.

End np.

(** ** scipy.stats *)

Module stats.

(** How often [v] occurs in [a]. *)
Definition count (v : nat) (a : list nat) : nat :=
  length (filter (λ x, x = v) a).

(** [mode(a, keepdims=False).mode]: the most common value, the smallest
    one when several are as common ([vals[cnts.argmax()]] over
    [np.unique(a, return_counts=True)]); nan, here [None], on the empty
    array. *)
Definition mode (a : list nat) : option nat :=
  match a with
  | [] => None
  | _ =>
      let vals := np.unique a in
      let cnts := (λ v, count v a) <$> vals in
      vals !! np.argmax cnts
  end.

End stats.

(** ** sklearn.metrics *)

(** [accuracy_score(y_true, y_pred)]: the fraction of positions where the
    two arrays agree; ValueError when their lengths differ. *)
Definition accuracy_score (y_true y_pred : list nat) : result score :=
  if bool_decide (length y_true = length y_pred)
  then Ok (np.average (zip_with (λ t p, bool_decide (t = p)) y_true y_pred))
  else Raise ValueError.

(** ** The estimators of scikit-learn *)

(** [X.shape[1]] *)
Definition n_features {F : Type} (X : list (list F)) : nat :=
  match X with
  | [] => 0
  | row :: _ => length row
  end.

(** [check_array]: an estimator's input has at least one sample and at
    least one feature. *)
Definition check_array {F : Type} (X : list (list F)) : result unit :=
  if bool_decide (length X = 0 ∨ n_features X = 0) then Raise ValueError
  else Ok tt.

(** What [KMeans.fit] leaves on the estimator: the cluster index of every
    fitted sample, and the assignment of a point to its closest centre. *)
Record KMeansFit (F : Type) := {
  labels_ : list nat;
  closest_centre : list F → nat
}.
Arguments labels_ {F}.
Arguments closest_centre {F}.

Record KMeans (F : Type) := {
  n_clusters : nat;
  km_random_state : nat;
  km_fitted : option (KMeansFit F)
}.
Arguments n_clusters {F}.
Arguments km_random_state {F}.
Arguments km_fitted {F}.

(** What [LogisticRegression.fit] leaves: the number of features of the
    fitted samples and the fitted decision function. *)
Record LogisticRegressionFit (F : Type) := {
  n_features_in_ : nat;
  predict_point : list F → nat
}.
Arguments n_features_in_ {F}.
Arguments predict_point {F}.

Record LogisticRegression (F : Type) := {
  max_iter : nat;
  lr_fitted : option (LogisticRegressionFit F)
}.
Arguments max_iter {F}.
Arguments lr_fitted {F}.

(** The numerical routines of the libraries, which the repository takes as
    given. *)
Class Sklearn (F : Type) := {
  (** [load_digits()]: [digits.data] and [digits.target] *)
  load_digits : list (list F) * list nat;
  (** the projection [PCA(n_components=k)] fits on and applies to [X] *)
  pca_project : nat → list (list F) → list (list F);
  (** the standardisation [StandardScaler] fits on and applies to [X] *)
  standardize : list (list F) → list (list F);
  (** numpy's generator: [RandomState(seed)], for a seed in numpy's range,
      and [rng.permutation(n)] *)
  RandomState : Type;
  RandomState_seed : nat → RandomState;
  permutation : RandomState → nat → list nat;
  (** the creation of the fitted attributes *)
  kmeans_fit : nat → nat → list (list F) → result (KMeansFit F);
  logreg_fit : nat → list (list F) → list nat → result (list F → nat)
}.

Module KMeans_.
Section estimator.
Context {F : Type} `{!Sklearn F}.

Definition fit (m : KMeans F) (X : list (list F)) : result (KMeans F) :=
  f ← kmeans_fit (n_clusters m) (km_random_state m) X;
  Ok {| n_clusters := n_clusters m;
        km_random_state := km_random_state m;
        km_fitted := Some f |}.

Definition predict (m : KMeans F) (X : list (list F)) : result (list nat) :=
  match km_fitted m with
  | Some f => Ok (closest_centre f <$> X)
  | None => Raise NotFittedError
  end.

(** the attribute [m.labels_] *)
Definition get_labels_ (m : KMeans F) : result (list nat) :=
  match km_fitted m with
  | Some f => Ok (labels_ f)
  | None => Raise AttributeError
  end.

End estimator.
End KMeans_.

Module LogisticRegression_.
Section estimator.
Context {F : Type} `{!Sklearn F}.

Definition fit (m : LogisticRegression F) (X : list (list F)) (y : list nat)
  : result (LogisticRegression F) :=
  f ← logreg_fit (max_iter m) X y;
  Ok {| max_iter := max_iter m;
        lr_fitted := Some {| n_features_in_ := n_features X; predict_point := f |} |}.

(** [predict] validates its input before it applies the decision function:
    ValueError for an array without samples or without features, and for
    points of another width than the fitted ones. *)
Definition predict (m : LogisticRegression F) (X : list (list F))
  : result (list nat) :=
  match lr_fitted m with
  | Some f =>
      _ ← check_array X;
      if bool_decide (n_features X = n_features_in_ f)
      then Ok (predict_point f <$> X)
      else Raise ValueError
  | None => Raise NotFittedError
  end.

End estimator.
End LogisticRegression_.

(** ** models/kmeans_clusterer.py *)

Module KMeansClusterer.
Section clusterer.
Context {F : Type} `{!Sklearn F}.

Record t := { model : KMeans F }.

(** [__init__(self, n_clusters=10, random_state=42)] *)
Definition init (n_clusters random_state : nat) : t :=
  {| model := {| n_clusters := n_clusters;
                 km_random_state := random_state;
                 km_fitted := None |} |}.

Definition default : t := init 10 42.

Definition train (self : t) (X : list (list F)) : result t :=
  m ← KMeans_.fit (model self) X;
  Ok {| model := m |}.

Definition predict (self : t) (X : list (list F)) : result (list nat) :=
  KMeans_.predict (model self) X.

(** The body of the loop [for i in range(10)] in [accuracy].  The array
    [labels] is one of 32-bit integers; a label is taken to be stored as it
    is, which holds for the labels below 2^31 ([int32_labels] below), and
    the properties that read a stored label back assume such labels. *)
Definition vote (labels_ y_train : list nat) (i : nat) (labels : list nat)
  : result (list nat) :=
  let mask := np.eq_mask labels_ i in
  if np.any mask then
    members ← np.getitem y_train mask;
    match stats.mode members with
    | Some v => np.setitem labels mask v
    | None => Raise ValueError
    end
  else Ok labels.

(** The array [labels] that [accuracy] compares with [y_train]. *)
Definition assigned_labels (labels_ y_train : list nat) : result (list nat) :=
  for_in (seq 0 10) (vote labels_ y_train) (np.zeros_like labels_).

Definition accuracy (self : t) (X_train : list (list F)) (y_train : list nat)
  : result score :=
  labels_ ← KMeans_.get_labels_ (model self);
  labels ← assigned_labels labels_ y_train;
  accuracy_score y_train labels.

End clusterer.
Arguments t : clear implicits.
End KMeansClusterer.

(** ** models/logistic_regression_classifier.py *)

Module LogisticRegressionClassifier.
Section classifier.
Context {F : Type} `{!Sklearn F}.

Record t := { model : LogisticRegression F }.

(** [__init__(self)] *)
Definition init : t :=
  {| model := {| max_iter := 1000; lr_fitted := None |} |}.

Definition train (self : t) (X_train : list (list F)) (y_train : list nat)
  : result t :=
  m ← LogisticRegression_.fit (model self) X_train y_train;
  Ok {| model := m |}.

Definition predict (self : t) (X : list (list F)) : result (list nat) :=
  LogisticRegression_.predict (model self) X.

Definition accuracy (self : t) (X_test : list (list F)) (y_test : list nat)
  : result score :=
  y_pred ← predict self X_test;
  accuracy_score y_test y_pred.

End classifier.
Arguments t : clear implicits.
End LogisticRegressionClassifier.

(** ** sklearn's preprocessing and splitting, as [data_loader.py] calls them

    Library routines: the definitions follow what scikit-learn documents
    for the arguments the loader passes.  Where the library multiplies the
    fraction by the number of samples in floating point, the product here
    is the exact one.  The two differ where the floating-point product
    rounds across an integer (0.07 of 100 samples: 8 test samples in the
    library, 7 here), so the properties below state the size of a test
    subset only for an integer [test_size] and for the driver's fraction
    0.3, where the library's rounding leaves the ceiling as it is (540 of
    the 1797 digits). *)

(** [a[indices]]: IndexError when an index is out of bounds. *)
Definition safe_indexing {A : Type} (a : list A) (indices : list nat)
  : result (list A) :=
  match mapM (λ i, a !! i) indices with
  | Some r => Ok r
  | None => Raise IndexError
  end.

(** The argument [test_size]: a Python float is the fraction of the samples
    that go to the test subset, a Python int their number. *)
Inductive size :=
| Fraction (q : Q)
| Count (n : Z).

Module sklearn.
Section sklearn.
Context {F : Type} `{!Sklearn F}.

(** [PCA(n_components=k).fit_transform(X)] for an integer [k] (solver
    'auto'): [k] must lie between 0 and [min(n_samples, n_features)]. *)
Definition PCA_fit_transform (n_components : Z) (X : list (list F))
  : result (list (list F)) :=
  _ ← check_array X;
  if bool_decide (0 ≤ n_components ≤ Z.of_nat (length X `min` n_features X))%Z
  then Ok (pca_project (Z.to_nat n_components) X)
  else Raise ValueError.

(** [StandardScaler().fit_transform(X)] *)
Definition StandardScaler_fit_transform (X : list (list F))
  : result (list (list F)) :=
  _ ← check_array X;
  Ok (standardize X).

(** [check_random_state(seed)]: [None] is numpy's global generator, an int
    seeds a generator of its own. *)
Definition check_random_state (seed : option nat) (global : RandomState)
  : RandomState :=
  match seed with
  | None => global
  | Some s => RandomState_seed s
  end.

(** [_validate_shuffle_split(n_samples, test_size, train_size=None)]:
    the sizes [(n_train, n_test)]. *)
Definition validate_shuffle_split (n_samples : nat) (test_size : size)
  : result (nat * nat) :=
  match test_size with
  | Fraction q =>
      if Qle_bool q 0 || Qle_bool 1 q then Raise ValueError
      else
        let n_test := Z.to_nat (Qceiling (q * inject_Z (Z.of_nat n_samples))) in
        let n_train := n_samples - n_test in
        if bool_decide (n_train = 0) then Raise ValueError
        else Ok (n_train, n_test)
  | Count n =>
      if bool_decide (Z.of_nat n_samples ≤ n ∨ n ≤ 0)%Z then Raise ValueError
      else
        let n_test := Z.to_nat n in
        let n_train := n_samples - n_test in
        if bool_decide (n_train = 0) then Raise ValueError
        else Ok (n_train, n_test)
  end.

(** [ShuffleSplit]'s single split: the first [n_test] entries of a
    permutation of the sample indices are the test indices, the next
    [n_train] the train indices. *)
Definition shuffle_split (n_samples n_train n_test : nat) (rng : RandomState)
  : list nat * list nat :=
  let permutation := permutation rng n_samples in
  let ind_test := take n_test permutation in
  let ind_train := take n_train (drop n_test permutation) in
  (ind_train, ind_test).

(** [train_test_split(X, y, test_size=.., random_state=..)] with the
    defaults [shuffle=True], [stratify=None], [train_size=None]. *)
Definition train_test_split (X : list (list F)) (y : list nat)
    (test_size : size) (random_state : option nat) (global : RandomState)
  : result (list (list F) * list (list F) * list nat * list nat) :=
  if bool_decide (length X = length y) then
    '(n_train, n_test) ← validate_shuffle_split (length X) test_size;
    let '(train, test) :=
      shuffle_split (length X) n_train n_test
        (check_random_state random_state global) in
    X_train ← safe_indexing X train;
    X_test ← safe_indexing X test;
    y_train ← safe_indexing y train;
    y_test ← safe_indexing y test;
    Ok (X_train, X_test, y_train, y_test)
  else Raise ValueError.

End sklearn.
End sklearn.

(** ** data_loader.py *)

Module DigitsDataLoader.
Section loader.
Context {F : Type} `{!Sklearn F}.

Record t := {
  n_components : Z;
  test_size : size;
  random_state : option nat
}.

(** [__init__(self, n_components=2, test_size=0.3, random_state=42)] *)
Definition init (n_components : Z) (test_size : size) (random_state : option nat)
  : t :=
  {| n_components := n_components;
     test_size := test_size;
     random_state := random_state |}.

Definition default : t := init 2 (Fraction (3 # 10)) (Some 42).

(** The split stage of [load_data]: its call of [train_test_split]. *)
Definition split (self : t) (X_scaled : list (list F)) (y : list nat)
    (global : RandomState)
  : result (list (list F) * list (list F) * list nat * list nat) :=
  sklearn.train_test_split X_scaled y (test_size self) (random_state self) global.

(** The feature reduction of [load_data]: PCA, then standardisation. *)
Definition reduce (self : t) (X : list (list F)) : result (list (list F)) :=
  X_reduced ← sklearn.PCA_fit_transform (n_components self) X;
  sklearn.StandardScaler_fit_transform X_reduced.

Definition load_data (self : t) (global : RandomState)
  : result (list (list F) * list (list F) * list nat * list nat
            * list (list F) * list nat) :=
  let '(X, y) := load_digits in
  X_scaled ← reduce self X;
  '(X_train, X_test, y_train, y_test) ← split self X_scaled y global;
  Ok (X_train, X_test, y_train, y_test, X_scaled, y).

End loader.
End DigitsDataLoader.

(** ** matplotlib.pyplot and the run's other effects

    A run is observed through the figures that are open and through the
    trace of what it did.  Colour maps, sizes and other styling arguments
    are left out of the trace.  [Plot] is [plt.plot] of a line through
    points; the calls on the axes (background, spines, ticks, arrow heads,
    limits) are [StyleAxes], and title, axis labels, grid and legend are
    [Labels]. *)

Inductive event (F : Type) :=
| Makedirs (path : string)
| FitLogisticRegression
| FitKMeans
| NewFigure
| Contourf (Z : list nat)
| Contour (Z : list nat)
| Scatter (xs ys : list F)
| Plot (xs ys : list F) (color : string)
| StyleAxes
| Labels
| Savefig (path : string)
| Show
| Close
| WriteReport (path : string).
Arguments Makedirs {F} path.
Arguments FitLogisticRegression {F}.
Arguments FitKMeans {F}.
Arguments NewFigure {F}.
Arguments Contourf {F} Z.
Arguments Contour {F} Z.
Arguments Scatter {F} xs ys.
Arguments Plot {F} xs ys color.
Arguments StyleAxes {F}.
Arguments Labels {F}.
Arguments Savefig {F} path.
Arguments Show {F}.
Arguments Close {F}.
Arguments WriteReport {F} path.

(** The environment of a run: which calls of the plotting backend and of
    the file system fail, scipy's convex hull (its simplices and vertices,
    as indices into the points; QhullError on degenerate input), the dense
    grid over the bounding box of the samples, and whether the output
    directory is there. *)
Class Backend (F : Type) := {
  raises : event F → option exception;
  ConvexHull : list (list F) → result (list (list nat) * list nat);
  meshgrid : list F → list F → list (list F);
  output_dir_exists : bool
}.

Record world (F : Type) := {
  figures : list nat;        (* the open figures, the current one first *)
  trace : list (event F)     (* what the run did, oldest first *)
}.
Arguments figures {F}.
Arguments trace {F}.

(** Computations that change the world and may raise. *)
Definition plt (F A : Type) : Type := world F → result A * world F.

#[global] Instance plt_ret {F} : MRet (plt F) := λ A a st, (Ok a, st).
#[global] Instance plt_bind {F} : MBind (plt F) :=
  λ A B k m st,
    match m st with
    | (Ok a, st') => k a st'
    | (Raise e, st') => (Raise e, st')
    end.

Module pyplot.
Section pyplot.
Context {F : Type} `{!Backend F}.

(** A computation without effect on the world. *)
Definition lift {A : Type} (r : result A) : plt F A := λ st, (r, st).

Definition record (e : event F) (st : world F) : world F :=
  {| figures := figures st; trace := trace st ++ [e] |}.

(** A call that succeeds or raises as the environment decides. *)
Definition call (e : event F) : plt F unit :=
  λ st,
    match raises e with
    | Some exn => (Raise exn, st)
    | None => (Ok tt, record e st)
    end.

(** Something the run did that cannot fail. *)
Definition emit (e : event F) : plt F unit := λ st, (Ok tt, record e st).

(** [plt.figure(...)], [plt.subplots(...)]: a new figure, made current. *)
Definition figure : plt F unit :=
  λ st,
    match raises NewFigure with
    | Some exn => (Raise exn, st)
    | None =>
        (Ok tt, {| figures := S (max_list (figures st)) :: figures st;
                   trace := trace st ++ [NewFigure] |})
    end.

(** [plt.close()]: closes the current figure, if there is one. *)
Definition close : plt F unit :=
  λ st, (Ok tt, {| figures := tail (figures st); trace := trace st ++ [Close] |}).

(** [try: m  except: pass] *)
Definition try_except_pass (m : plt F unit) : plt F unit :=
  λ st, (Ok tt, (m st).2).

(** [for x in xs: body x] *)
Fixpoint for_each {A : Type} (xs : list A) (body : A → plt F unit) : plt F unit :=
  match xs with
  | [] => mret tt
  | x :: xs => body x ;; for_each xs body
  end.

(** [if output_path: plt.savefig(output_path, ...) else: plt.show()];
    [None] and the empty string are false. *)
Definition save_or_show (output_path : option string) : plt F unit :=
  match output_path with
  | Some (String c s) => call (Savefig (String c s))
  | _ => call Show
  end.

End pyplot.
End pyplot.

(** [X[:, k]] *)
Definition column {F : Type} (k : nat) (X : list (list F)) : result (list F) :=
  match mapM (λ row : list F, row !! k) X with
  | Some col => Ok col
  | None => Raise IndexError
  end.

(** [X[mask, k]] *)
Definition masked_column {F : Type} (X : list (list F)) (mask : list bool) (k : nat)
  : result (list F) :=
  col ← column k X;
  np.getitem col mask.

(** [X[:, k].min()] and [X[:, k].max()] exist: ValueError on an empty
    array. *)
Definition extent {F : Type} (k : nat) (X : list (list F)) : result unit :=
  col ← column k X;
  match col with
  | [] => Raise ValueError
  | _ => Ok tt
  end.

(** ** visualizer.py *)

Module DataVisualizer.
Section visualizer.
Context {F : Type} `{!Sklearn F} `{!Backend F}.

Definition plot_combined_boundaries (log_reg : LogisticRegression F)
    (kmeans : KMeans F) (X_scaled : list (list F)) (y : list nat)
    (output_path : option string) : plt F unit :=
  pyplot.lift (extent 0 X_scaled);;
  pyplot.lift (extent 1 X_scaled);;
  xs ← pyplot.lift (column 0 X_scaled);
  ys ← pyplot.lift (column 1 X_scaled);
  let grid := meshgrid xs ys in
  Z_lr ← pyplot.lift (LogisticRegression_.predict log_reg grid);
  Z_km ← pyplot.lift (KMeans_.predict kmeans grid);
  pyplot.figure;;
  pyplot.call (Contourf Z_lr);;
  pyplot.call (Contour Z_km);;
  pyplot.call (Scatter xs ys);;
  pyplot.call Labels;;
  pyplot.save_or_show output_path;;
  pyplot.close.

Definition plot_clusters_scatter (X_scaled : list (list F)) (y : list nat)
    (kmeans_labels : list nat) (output_path : option string) : plt F unit :=
  pyplot.figure;;
  let unique_clusters := np.unique kmeans_labels in
  pyplot.for_each unique_clusters (λ cluster_id,
    let mask := np.eq_mask kmeans_labels cluster_id in
    xs ← pyplot.lift (masked_column X_scaled mask 0);
    ys ← pyplot.lift (masked_column X_scaled mask 1);
    pyplot.call (Scatter xs ys));;
  pyplot.call StyleAxes;;
  pyplot.call Labels;;
  pyplot.save_or_show output_path;;
  pyplot.close.

(** [cluster_colors.get(cluster_id, '#999999')] *)
Definition cluster_color (cluster_id : nat) : string :=
  match cluster_id with
  | 0 => "#FF6B6B"
  | 1 => "#4ECDC4"
  | _ => "#999999"
  end.

(** The body of [try] in [plot_simple_clusters]: the outline of the convex
    hull of a cluster's points. *)
Definition hull_outline (X_scaled : list (list F)) (mask : list bool)
    (color : string) : plt F unit :=
  points ← pyplot.lift (np.getitem X_scaled mask);
  '(simplices, vertices) ← pyplot.lift (ConvexHull points);
  pyplot.for_each simplices (λ simplex,
    segment ← pyplot.lift (safe_indexing points simplex);
    xs ← pyplot.lift (column 0 segment);
    ys ← pyplot.lift (column 1 segment);
    pyplot.call (Plot xs ys color));;
  hull_points ← pyplot.lift (safe_indexing points vertices);
  first ← pyplot.lift (safe_indexing hull_points [0]);
  let hull_points := hull_points ++ first in
  xs ← pyplot.lift (column 0 hull_points);
  ys ← pyplot.lift (column 1 hull_points);
  pyplot.call (Plot xs ys color).

(** The body of the loop over the first two clusters. *)
Definition draw_cluster (X_scaled : list (list F)) (kmeans_labels : list nat)
    (cluster_id : nat) : plt F unit :=
  let mask := np.eq_mask kmeans_labels cluster_id in
  let color := cluster_color cluster_id in
  xs ← pyplot.lift (masked_column X_scaled mask 0);
  ys ← pyplot.lift (masked_column X_scaled mask 1);
  pyplot.call (Scatter xs ys);;
  if bool_decide (2 < np.sum mask)
  then pyplot.try_except_pass (hull_outline X_scaled mask color)
  else mret tt.

Definition plot_simple_clusters (X_scaled : list (list F)) (y : list nat)
    (kmeans_labels : list nat) (output_path : option string) : plt F unit :=
  pyplot.figure;;
  pyplot.call StyleAxes;;
  let unique_clusters := np.unique kmeans_labels in
  pyplot.for_each (take 2 unique_clusters) (draw_cluster X_scaled kmeans_labels);;
  pyplot.call StyleAxes;;
  pyplot.lift (extent 0 X_scaled);;
  pyplot.call StyleAxes;;
  pyplot.lift (extent 1 X_scaled);;
  pyplot.call StyleAxes;;
  pyplot.save_or_show output_path;;
  pyplot.close.

End visualizer.
End DataVisualizer.

(** ** main.py *)

(** What the text report states. *)
Record report := {
  total : nat;
  n_train : nat;
  n_test : nat;
  acc_lr : score;
  acc_km : score;
  chart : string
}.

Module Main.
Section main.
Context {F : Type} `{!Sklearn F} `{!Backend F}.

Definition output_dir : string := "output".

(** [os.path.join(output_dir, f"{name}_{timestamp}{ext}")] *)
Definition output_file (name timestamp ext : string) : string :=
  output_dir +:+ "/" +:+ name +:+ "_" +:+ timestamp +:+ ext.

(** The body of [main] for the loader it constructs; the progress lines
    printed on the way are left out. *)
Definition run (loader : DigitsDataLoader.t) (timestamp : string)
    (global : RandomState) : plt F report :=
  (if output_dir_exists then mret tt else pyplot.call (Makedirs output_dir));;
  let chart_filename := output_file "classification_comparison" timestamp ".png" in
  let clusters_scatter_filename := output_file "clusters_scatter" timestamp ".png" in
  let clusters_simple_filename := output_file "clusters_simple" timestamp ".png" in
  let results_filename := output_file "results" timestamp ".txt" in
  '(X_train, X_test, y_train, y_test, X_scaled, y) ←
    pyplot.lift (DigitsDataLoader.load_data loader global);
  let log_reg := LogisticRegressionClassifier.init in
  pyplot.emit FitLogisticRegression;;
  log_reg ← pyplot.lift (LogisticRegressionClassifier.train log_reg X_train y_train);
  acc_lr ← pyplot.lift (LogisticRegressionClassifier.accuracy log_reg X_test y_test);
  let kmeans := KMeansClusterer.default in
  pyplot.emit FitKMeans;;
  kmeans ← pyplot.lift (KMeansClusterer.train kmeans X_train);
  acc_km ← pyplot.lift (KMeansClusterer.accuracy kmeans X_train y_train);
  kmeans_labels ← pyplot.lift (KMeansClusterer.predict kmeans X_scaled);
  DataVisualizer.plot_combined_boundaries
    (LogisticRegressionClassifier.model log_reg) (KMeansClusterer.model kmeans)
    X_scaled y (Some chart_filename);;
  DataVisualizer.plot_clusters_scatter X_scaled y kmeans_labels
    (Some clusters_scatter_filename);;
  DataVisualizer.plot_simple_clusters X_scaled y kmeans_labels
    (Some clusters_simple_filename);;
  pyplot.call (WriteReport results_filename);;
  mret {| total := length X_scaled;
          n_train := length X_train;
          n_test := length X_test;
          acc_lr := acc_lr;
          acc_km := acc_km;
          chart := chart_filename |}.

(** [main()]: the loader is [DigitsDataLoader()]. *)
Definition main (timestamp : string) (global : RandomState) : plt F report :=
  run DigitsDataLoader.default timestamp global.

End main.
End Main.

(** ** The majority-vote accuracy, in the words of the specification

    (a) a ClusterLabelMap whose entry for a cluster is the mode of the true
    labels of the points assigned to it, (b) every point's cluster index
    mapped through it, (c) the exact-match fraction against the true
    labels. *)

Module MajorityVote.

(** The true labels of the points that [clusters] assigns to [c]. *)
Definition members (c : nat) (clusters y : list nat) : list nat :=
  (filter (λ p, p.1 = c) (zip clusters y)).*2.

Definition ClusterLabelMap (clusters y : list nat) : gmap nat nat :=
  foldr (λ c m, match stats.mode (members c clusters y) with
                | Some l => <[c := l]> m
                | None => m
                end) ∅ clusters.

(** A cluster index without an entry maps to label 0. *)
Definition predicted (m : gmap nat nat) (clusters : list nat) : list nat :=
  (λ c, default 0 (m !! c)) <$> clusters.

Definition accuracy (clusters y : list nat) : result score :=
  accuracy_score y (predicted (ClusterLabelMap clusters y) clusters).

(** The map with the entries of cluster indices below [k] only. *)
Definition below (k : nat) (m : gmap nat nat) : gmap nat nat :=
  filter (λ kv, kv.1 < k) m.

End MajorityVote.

(** ** Sample environments

    Small instances of the libraries, used to run the definitions on
    concrete inputs. *)

(** Points on a line, clustered around the centres 0, 10, ..., 10(k-1):
    the index of the centre closest to the first coordinate. *)
Definition line_centre (k : nat) (p : list Z) : nat :=
  match p with
  | x :: _ => Z.to_nat ((x + 5) / 10) `min` (k - 1)
  | [] => 0
  end.

(** What fitting [k] clusters to the samples [X] on the line leaves. *)
Definition line_fit (k : nat) (X : list (list Z)) : KMeansFit Z :=
  {| labels_ := line_centre k <$> X; closest_centre := line_centre k |}.

Definition line_clusterer (k : nat) (X : list (list Z)) : KMeansClusterer.t Z :=
  {| KMeansClusterer.model :=
       {| n_clusters := k; km_random_state := 42;
          km_fitted := Some (line_fit k X) |} |}.

(** Sample inputs on the line. *)
Definition samples_0_10 : list (list Z) := [[0]; [10]]%Z.
Definition points_0_0 : list (list Z) := [[0]; [0]]%Z.
Definition samples_grid_11 : list (list Z) := (λ i, [10 * Z.of_nat i]%Z) <$> seq 0 11.
Definition samples_0_1_10_12 : list (list Z) := [[0]; [1]; [10]; [12]]%Z.
Definition samples_0_1_10 : list (list Z) := [[0]; [1]; [10]]%Z.


(** A library over integer coordinates: twenty samples with three
    features and the labels 0..9, the projection on the first [k]
    coordinates, no rescaling, a generator whose state is a number and
    whose permutation rotates the indices by it, k-means on the line, and a
    classifier that reads the label off the position on the line. *)
Definition toy_digits : list (list Z) * list nat :=
  ((λ i, [5 * Z.of_nat i; Z.of_nat (i `mod` 2); 7]%Z) <$> seq 0 20,
   (λ i, i `div` 2) <$> seq 0 20).

Definition toy_sklearn : Sklearn Z :=
  {| load_digits := toy_digits;
     pca_project := λ k X, take k <$> X;
     standardize := λ X, X;
     RandomState := nat;
     RandomState_seed := λ seed, seed;
     permutation := λ rng n, rotate rng (seq 0 n);
     kmeans_fit := λ k _ X,
       if bool_decide (length X < k) then Raise ValueError else Ok (line_fit k X);
     logreg_fit := λ _ _ _, Ok (line_centre 10) |}.

(** A triangle on the first three points stands for the convex hull. *)
Definition toy_hull (points : list (list Z)) : result (list (list nat) * list nat) :=
  if bool_decide (length points < 3) then Raise QhullError
  else Ok ([[0; 1]; [1; 2]; [2; 0]], [0; 1; 2]).

(** A backend on which every call succeeds. *)
Definition calm_backend : Backend Z :=
  {| raises := λ _, None;
     ConvexHull := toy_hull;
     meshgrid := λ xs ys, [[0; 0]; [10; 0]]%Z;
     output_dir_exists := true |}.

(** A backend that cannot write image files. *)
Definition readonly_backend : Backend Z :=
  {| raises := λ e, match e with Savefig _ => Some OSError | _ => None end;
     ConvexHull := toy_hull;
     meshgrid := λ xs ys, [[0; 0]; [10; 0]]%Z;
     output_dir_exists := true |}.

Definition empty_world : world Z := {| figures := []; trace := [] |}.

(** Sample inputs of the charts: four points, three in cluster 0 and one
    in cluster 1. *)
Definition chart_points : list (list Z) := [[0; 0]; [1; 0]; [2; 1]; [10; 0]]%Z.
Definition chart_labels : list nat := [0; 0; 0; 1].


(** ** Predicates of the properties below *)

(** The label the loop gives to cluster [c]. *)
Definition label_of (labels_ y : list nat) (c : nat) : nat :=
  default 0 (stats.mode (MajorityVote.members c labels_ y)).

(** True labels that the array of assigned labels can hold.  [accuracy]
    keeps the labels it assigns in [np.zeros_like(self.model.labels_)], an
    array of 32-bit integers: a label below 2^31 is stored as it is, a
    larger one would not survive the assignment.  Class labels, such as
    the digits, are of this kind. *)
Definition int32_labels (y : list nat) : Prop :=
  Forall (λ t, (Z.of_nat t < 2 ^ 31)%Z) y.

(** numpy's contract for [rng.permutation(n)]. *)
Definition permutation_law {F : Type} `{!Sklearn F} : Prop :=
  ∀ (rng : RandomState) (n : nat), permutation rng n ≡ₚ seq 0 n.

(** What [PCA] is assumed to do when asked for no component: it leaves no
    feature. *)
Definition pca_zero_law {F : Type} `{!Sklearn F} : Prop := ∀ X, n_features (pca_project 0 X) = 0.

(** [m] takes every world to one that [R] relates to it, whether it
    returns or raises. *)
Definition keeps {F A : Type} (R : world F → world F → Prop) (m : plt F A) : Prop :=
  ∀ st, R st (m st).2.

(** The figures that are open are the same before and after. *)
Definition same_figures {F : Type} (st st' : world F) : Prop := figures st' = figures st.

(** [m] closes the current figure when it returns and leaves the open
    figures as they are when it raises. *)
Definition closes_on_return {F : Type} (m : plt F unit) : Prop :=
  ∀ st, match m st with
        | (Ok _, st') => figures st' = tail (figures st)
        | (Raise _, st') => figures st' = figures st
        end.

(** [m] leaves the open figures as they were when it returns; when it
    raises, the figure it may have opened is still there. *)
Definition releases_on_return {F : Type} (m : plt F unit) : Prop :=
  ∀ st, match m st with
        | (Ok _, st') => figures st' = figures st
        | (Raise _, st') =>
            figures st' = figures st
            ∨ figures st' = S (max_list (figures st)) :: figures st
        end.

(** Every event of the later trace was there before or satisfies [P]. *)
Definition adds_only {F : Type} (P : event F → Prop) (st st' : world F) : Prop :=
  ∀ e, e ∈ trace st' → e ∈ trace st ∨ P e.

(** The outlines carry the colour they are drawn in. *)
Definition plots_in {F : Type} (color : string) (e : event F) : Prop :=
  match e with
  | Plot _ _ c => c = color
  | _ => True
  end.

(** No outline at all. *)
Definition no_plot {F : Type} (e : event F) : Prop :=
  match e with
  | Plot _ _ _ => False
  | _ => True
  end.

Definition is_plot {F : Type} (e : event F) : bool :=
  match e with
  | Plot _ _ _ => true
  | _ => false
  end.

(** [m] returns from every world. *)
Definition returns {F A : Type} (m : plt F A) : Prop :=
  ∀ st, ∃ a st', m st = (Ok a, st').


(** The number of samples whose true label is the one [f] gives to their
    cluster. *)
Definition hits (f : nat → nat) (clusters y : list nat) : nat :=
  length (filter (λ p, p.2 = f p.1) (zip clusters y)).

(** The later trace is the earlier one followed by events that satisfy
    [P]. *)
Definition extends_by {F : Type} (P : event F → Prop) (st st' : world F) : Prop :=
  ∃ ev, trace st' = trace st ++ ev ∧ Forall P ev.

(** When [m] returns, it has added events that satisfy [P] and then, last,
    the events [tail]. *)
Definition finishes {F A : Type} (P : event F → Prop) (tail : list (event F))
    (m : plt F A) : Prop :=
  ∀ st a st', m st = (Ok a, st') →
    ∃ ev, trace st' = trace st ++ ev ++ tail ∧ Forall P ev.

(** When [m] raises, it has added only events that satisfy [P]. *)
Definition fails_with {F A : Type} (P : event F → Prop) (m : plt F A) : Prop :=
  ∀ st e st', m st = (Raise e, st') → extends_by P st st'.

(** [releases_on_return], for a computation with any result. *)
Definition figure_safe {F A : Type} (m : plt F A) : Prop :=
  ∀ st, match m st with
        | (Ok _, st') => figures st' = figures st
        | (Raise _, st') =>
            figures st' = figures st
            ∨ figures st' = S (max_list (figures st)) :: figures st
        end.

(** What a chart does to show itself: [savefig] for a path that is not
    empty, [show] otherwise. *)
Definition output_event {F : Type} (output_path : option string) : event F :=
  match output_path with
  | Some (String c s) => Savefig (String c s)
  | _ => Show
  end.

(** The events of drawing: neither saving nor showing, and nothing outside
    the plotting backend. *)
Definition drawing {F : Type} (e : event F) : Prop :=
  match e with
  | NewFigure | Contourf _ | Contour _ | Scatter _ _ | Plot _ _ _
  | StyleAxes | Labels | Close => True
  | _ => False
  end.

(** The events of a chart: drawing, saving, showing. *)
Definition charting {F : Type} (e : event F) : Prop :=
  match e with
  | Savefig _ | Show => True
  | _ => drawing e
  end.

(** scikit-learn's contract for [KMeans.fit] with at least one cluster:
    the stored cluster indices are those [predict] gives the fitted samples,
    and all lie below the number of clusters. *)
Definition kmeans_fit_law {F : Type} `{!Sklearn F} : Prop :=
  ∀ (k random_state : nat) (X : list (list F)) (f : KMeansFit F),
    0 < k →
    kmeans_fit k random_state X = Ok f →
    labels_ f = closest_centre f <$> X ∧ Forall (λ c, c < k) (labels_ f).

(** A backend whose hull computation always fails. *)
Definition flat_backend : Backend Z :=
  {| raises := λ _, None;
     ConvexHull := λ _, Raise QhullError;
     meshgrid := λ xs ys, [[0; 0]; [10; 0]]%Z;
     output_dir_exists := false |}.


(** * Properties *)

(** ** Loops and masks *)

Lemma for_in_app {A S : Type} (xs ys : list A) (body : A → S → result S) (s : S) :
  for_in (xs ++ ys) body s = (s' ← for_in xs body s; for_in ys body s').
Proof.
  revert s. induction xs as [|x xs IH]; intros s; simpl.
  - done.
  - destruct (body x s) as [s'|e]; simpl; [apply IH | done].
Qed.

Lemma for_in_one {A S : Type} (x : A) (body : A → S → result S) (s : S) :
  for_in [x] body s = body x s.
Proof. simpl. by destruct (body x s). Qed.

Lemma length_eq_mask (a : list nat) (i : nat) : length (np.eq_mask a i) = length a.
Proof. unfold np.eq_mask. by rewrite length_fmap. Qed.

Lemma any_eq_mask (a : list nat) (i : nat) : np.any (np.eq_mask a i) = true ↔ i ∈ a.
Proof.
  unfold np.any, np.eq_mask. induction a as [|c a IH]; simpl.
  - split; [done | by intros ?%elem_of_nil].
  - rewrite elem_of_cons, orb_true_iff, IH. unfold id.
    rewrite bool_decide_eq_true. split; intros [?|?]; auto.
Qed.

Lemma any_eq_mask_false (a : list nat) (i : nat) :
  np.any (np.eq_mask a i) = false ↔ i ∉ a.
Proof. rewrite <- any_eq_mask. by destruct (np.any _). Qed.

(** The boolean selection of the code is the comprehension of the
    specification. *)
Lemma compress_eq_mask (clusters y : list nat) (c : nat) :
  np.compress (np.eq_mask clusters c) y = MajorityVote.members c clusters y.
Proof.
  unfold MajorityVote.members, np.eq_mask.
  revert y. induction clusters as [|d cl IH]; intros [|t y]; simpl; try done.
  rewrite filter_cons. simpl. rewrite IH.
  destruct (decide (d = c)) as [->|Hne].
  - by rewrite bool_decide_eq_true_2.
  - by rewrite bool_decide_eq_false_2.
Qed.

Lemma members_lookup (clusters y : list nat) (c j t : nat) :
  clusters !! j = Some c → y !! j = Some t → t ∈ MajorityVote.members c clusters y.
Proof.
  intros Hc Hy. unfold MajorityVote.members.
  apply list_elem_of_fmap. exists (c, t). split; [done|].
  apply list_elem_of_filter. split; [done|].
  apply list_elem_of_lookup. exists j. rewrite lookup_zip_with, Hc. simpl. by rewrite Hy.
Qed.

Lemma elem_of_members (clusters y : list nat) (c t : nat) :
  t ∈ MajorityVote.members c clusters y →
  ∃ j, clusters !! j = Some c ∧ y !! j = Some t.
Proof.
  unfold MajorityVote.members. intros ([c' t'] & -> & Hin)%list_elem_of_fmap.
  apply list_elem_of_filter in Hin as [Hc Hin]. simpl in Hc. subst c'.
  apply list_elem_of_lookup in Hin as [j Hj]. exists j.
  apply lookup_zip_with_Some in Hj as (a & b & [= -> ->] & Ha & Hb). done.
Qed.

(** ** The mode *)

Lemma elem_of_unique (a : list nat) (v : nat) : v ∈ np.unique a ↔ v ∈ a.
Proof.
  unfold np.unique. rewrite list_elem_of_filter, elem_of_seq.
  split; [by intros [? _]|]. intros Hin. split; [done|].
  split; [lia|]. simpl. apply max_list_elem_of_le in Hin. lia.
Qed.

Lemma argmax_lookup (a : list nat) :
  a ≠ [] → a !! np.argmax a = Some (max_list a).
Proof.
  intros Hne. unfold np.argmax.
  destruct (list_find (λ c, c = max_list a) a) as [[i c]|] eqn:Hfind; simpl.
  - apply list_find_Some in Hfind as (Hi & -> & _). done.
  - apply list_find_None in Hfind.
    pose proof (max_list_elem_of a Hne) as Hmax.
    rewrite Forall_forall in Hfind. by destruct (Hfind _ Hmax).
Qed.

Lemma count_not_elem_of (w : nat) (a : list nat) : w ∉ a → stats.count w a = 0.
Proof.
  unfold stats.count. induction a as [|x a IH]; intros Hw; [done|].
  apply not_elem_of_cons in Hw as [Hne Hw].
  rewrite filter_cons_False by congruence. by apply IH.
Qed.

(** The mode of a non-empty array is one of its values, and no value is
    more common. *)
Lemma mode_spec (a : list nat) :
  a ≠ [] →
  ∃ v, stats.mode a = Some v ∧ v ∈ a ∧ ∀ w, stats.count w a ≤ stats.count v a.
Proof.
  intros Hne. unfold stats.mode. destruct a as [|x a']; [done|].
  remember (x :: a') as a eqn:Ha.
  assert (Hx : x ∈ np.unique a) by (apply elem_of_unique; subst a; left).
  remember ((λ v, stats.count v a) <$> np.unique a) as cnts eqn:Hcnts.
  assert (Hc : cnts ≠ []).
  { subst cnts. intros Hnil%fmap_nil_inv. rewrite Hnil in Hx.
    by apply elem_of_nil in Hx. }
  assert (Harg : ((λ v, stats.count v a) <$> np.unique a) !! np.argmax cnts
                 = Some (max_list cnts)).
  { rewrite <- Hcnts. by apply argmax_lookup. }
  rewrite list_lookup_fmap in Harg.
  destruct (np.unique a !! np.argmax cnts) as [v|] eqn:Hv; [|done].
  simpl in Harg. injection Harg as Harg.
  exists v. split; [done|]. split.
  - apply elem_of_unique. by eapply list_elem_of_lookup_2.
  - intros w. rewrite Harg. destruct (decide (w ∈ a)) as [Hw|Hw].
    + apply max_list_elem_of_le. subst cnts. apply list_elem_of_fmap.
      exists w. split; [done|]. by apply elem_of_unique.
    + rewrite (count_not_elem_of w a Hw). lia.
Qed.

Lemma mode_is_Some (a : list nat) : a ≠ [] → is_Some (stats.mode a).
Proof. intros (v & -> & _)%mode_spec. by eexists. Qed.

Lemma mode_elem_of (a : list nat) (v : nat) : stats.mode a = Some v → v ∈ a.
Proof.
  intros Hm. destruct a as [|x a]; [done|].
  destruct (mode_spec (x :: a)) as (w & Hw & Hin & _); [done|]. congruence.
Qed.

(** The mode of an array whose entries are all [v]. *)
Lemma mode_constant (a : list nat) (v : nat) :
  a ≠ [] → (∀ w, w ∈ a → w = v) → stats.mode a = Some v.
Proof.
  intros Hne Hall. destruct (mode_spec a Hne) as (w & Hw & Hin & _).
  by rewrite Hw, (Hall w Hin).
Qed.

(** [np.unique] lists the values in increasing order. *)
Lemma filter_seq_increasing (P : nat → Prop) `{!∀ x, Decision (P x)}
    (a n i j x y : nat) :
  filter P (seq a n) !! i = Some x → filter P (seq a n) !! j = Some y →
  i < j → x < y.
Proof.
  revert a i j. induction n as [|n IH]; intros a i j; [done|].
  cbn [seq]. rewrite filter_cons. case_decide as HP; [|apply IH].
  destruct i as [|i]; destruct j as [|j]; simpl; try lia.
  - intros [= <-] Hy _.
    apply list_elem_of_lookup_2, list_elem_of_filter in Hy as [_ Hy].
    apply elem_of_seq in Hy. lia.
  - intros Hx Hy Hij. apply (IH (S a) i j); [done | done | lia].
Qed.

(** Among the most common values the mode is the smallest. *)
Lemma mode_smallest (a : list nat) (v w : nat) :
  stats.mode a = Some v → w ∈ a → stats.count w a = stats.count v a → v ≤ w.
Proof.
  intros Hm Hw Hcount. destruct a as [|x a']; [done|].
  remember (x :: a') as a eqn:Ha. unfold stats.mode in Hm. rewrite Ha in Hm.
  rewrite <- Ha in Hm. clear Ha x a'.
  remember ((λ v, stats.count v a) <$> np.unique a) as cnts eqn:Hcnts.
  unfold np.argmax in Hm.
  destruct (list_find (λ c, c = max_list cnts) cnts) as [[i c]|] eqn:Hfind.
  - apply list_find_Some in Hfind as (Hi & -> & Hfirst). simpl in Hm.
    assert (stats.count v a = max_list cnts) as Hv.
    { rewrite Hcnts, list_lookup_fmap, Hm in Hi. simpl in Hi. injection Hi as Hi.
      by rewrite Hcnts. }
    assert (w ∈ np.unique a) as [j Hj]%list_elem_of_lookup by by apply elem_of_unique.
    assert (cnts !! j = Some (max_list cnts)) as Hcj.
    { rewrite Hcnts at 1. rewrite list_lookup_fmap, Hj. simpl. congruence. }
    destruct (decide (j < i)) as [Hlt|Hge].
    { by destruct (Hfirst j _ Hcj Hlt). }
    destruct (decide (i = j)) as [->|Hne]; [simplify_eq; lia|].
    unfold np.unique in Hm, Hj.
    pose proof (filter_seq_increasing _ _ _ _ _ _ _ Hm Hj). lia.
  - simpl in Hm. apply list_find_None in Hfind.
    assert (cnts ≠ []) as Hne.
    { rewrite Hcnts. intros Hnil%fmap_nil_inv.
      apply elem_of_unique in Hw. rewrite Hnil in Hw. by apply elem_of_nil in Hw. }
    pose proof (max_list_elem_of cnts Hne) as Hmax.
    rewrite Forall_forall in Hfind. by destruct (Hfind _ Hmax).
Qed.

(** ** The voting loop of [KMeansClusterer.accuracy] *)

Lemma members_nonempty (labels_ y : list nat) (c : nat) :
  length y = length labels_ → c ∈ labels_ → MajorityVote.members c labels_ y ≠ [].
Proof.
  intros Hlen (j & Hj)%list_elem_of_lookup.
  destruct (lookup_lt_is_Some_2 y j) as [t Ht].
  { rewrite Hlen. by eapply lookup_lt_Some. }
  pose proof (members_lookup _ _ _ _ _ Hj Ht) as Hin.
  intros Hnil. rewrite Hnil in Hin. by apply elem_of_nil in Hin.
Qed.

Lemma vote_length (labels_ y : list nat) (i : nat) (cur cur' : list nat) :
  KMeansClusterer.vote labels_ y i cur = Ok cur' → length cur' = length cur.
Proof.
  unfold KMeansClusterer.vote. destruct (np.any _); [|by intros [= ->]].
  destruct (np.getitem y _) as [members|]; simpl; [|done].
  destruct (stats.mode members) as [v|]; [|done].
  unfold np.setitem. case_bool_decide as Hl; [|done].
  intros [= <-]. by rewrite length_zip_with_r_eq.
Qed.

(** After the clusters below [k] have voted, their points carry their
    cluster's label and all other points still carry 0. *)
Lemma vote_loop (labels_ y : list nat) (k : nat) :
  length y = length labels_ →
  for_in (seq 0 k) (KMeansClusterer.vote labels_ y) (np.zeros_like labels_)
  = Ok ((λ c, if decide (c < k) then label_of labels_ y c else 0) <$> labels_).
Proof.
  intros Hlen. induction k as [|k IH].
  - simpl. f_equal. unfold np.zeros_like. symmetry. by apply const_fmap.
  - rewrite seq_S, for_in_app, IH. simpl seq.
    change (for_in [k] (KMeansClusterer.vote labels_ y)
      ((λ c, if decide (c < k) then label_of labels_ y c else 0) <$> labels_)
      = Ok ((λ c, if decide (c < S k) then label_of labels_ y c else 0) <$> labels_)).
    rewrite for_in_one. unfold KMeansClusterer.vote.
    destruct (np.any (np.eq_mask labels_ k)) eqn:Hany.
    + apply any_eq_mask in Hany.
      unfold np.getitem. rewrite length_eq_mask, bool_decide_eq_true_2 by done.
      simpl. rewrite compress_eq_mask.
      destruct (mode_is_Some (MajorityVote.members k labels_ y)) as [v Hv].
      { by apply members_nonempty. }
      rewrite Hv. unfold np.setitem.
      rewrite length_eq_mask, length_fmap, bool_decide_eq_true_2 by done.
      f_equal. unfold np.eq_mask.
      rewrite zip_with_fmap_l, zip_with_fmap_r, zip_with_diag.
      apply list_fmap_ext. intros _ c _. simpl.
      case_bool_decide as Hc.
      * subst c. rewrite decide_True by lia. unfold label_of. by rewrite Hv.
      * repeat case_decide; try done; lia.
    + apply any_eq_mask_false in Hany. f_equal.
      apply list_fmap_ext. intros j c Hj.
      assert (c ≠ k) by (intros ->; apply Hany; by eapply list_elem_of_lookup_2).
      repeat case_decide; try done; lia.
Qed.

Lemma assigned_labels_eq (labels_ y : list nat) :
  length y = length labels_ →
  KMeansClusterer.assigned_labels labels_ y
  = Ok ((λ c, if decide (c < 10) then label_of labels_ y c else 0) <$> labels_).
Proof. apply vote_loop. Qed.

Lemma for_in_vote_length (labels_ y : list nat) (ks : list nat) (cur cur' : list nat) :
  for_in ks (KMeansClusterer.vote labels_ y) cur = Ok cur' → length cur' = length cur.
Proof.
  revert cur. induction ks as [|k ks IH]; intros cur; simpl.
  - by intros [= ->].
  - destruct (KMeansClusterer.vote labels_ y k cur) as [c1|] eqn:Hv; simpl; [|done].
    intros ->%IH. by eapply vote_length.
Qed.

Lemma assigned_labels_length (labels_ y labels : list nat) :
  KMeansClusterer.assigned_labels labels_ y = Ok labels → length labels = length labels_.
Proof.
  intros ->%for_in_vote_length. unfold np.zeros_like. apply length_replicate.
Qed.

(** With true labels of another length a cluster that has members cannot
    vote: the selection [y_train[mask]] raises. *)
Lemma vote_mismatch (labels_ y : list nat) (i : nat) (cur cur' : list nat) :
  length y ≠ length labels_ →
  KMeansClusterer.vote labels_ y i cur = Ok cur' → cur' = cur.
Proof.
  intros Hlen. unfold KMeansClusterer.vote. destruct (np.any _); [|by intros [= ->]].
  unfold np.getitem. rewrite length_eq_mask, bool_decide_eq_false_2 by done. done.
Qed.

Lemma for_in_vote_mismatch (labels_ y : list nat) (ks : list nat) (cur cur' : list nat) :
  length y ≠ length labels_ →
  for_in ks (KMeansClusterer.vote labels_ y) cur = Ok cur' → cur' = cur.
Proof.
  intros Hlen. revert cur. induction ks as [|k ks IH]; intros cur; simpl.
  - by intros [= ->].
  - destruct (KMeansClusterer.vote labels_ y k cur) as [c1|] eqn:Hv; simpl; [|done].
    apply (vote_mismatch _ _ _ _ _ Hlen) in Hv as ->. apply IH.
Qed.

(** ** The exact-match fraction *)

Lemma filter_length_all {A : Type} (P : A → Prop) `{!∀ x, Decision (P x)} (l : list A) :
  length (filter P l) = length l → Forall P l.
Proof.
  induction l as [|x l IH]; [constructor|].
  rewrite filter_cons. case_decide as HP; simpl.
  - intros [= Hl]. constructor; auto.
  - intros Hl. pose proof (length_filter P l). lia.
Qed.

Lemma average_one (mask : list bool) (q : Q) :
  np.average mask = Score q → (q == 1)%Q → Forall (λ b, b = true) mask.
Proof.
  unfold np.average. destruct mask as [|b mask]; [done|].
  intros [= <-] Hq. apply (filter_length_all (λ b : bool, b = true)).
  fold (np.sum (b :: mask)).
  unfold Qeq in Hq. simpl in Hq.
  rewrite <- Pos.of_nat_succ, Zpos_P_of_succ_nat in Hq.
  change (length (b :: mask)) with (S (length mask)). lia.
Qed.

Lemma accuracy_score_Ok_length (y_true y_pred : list nat) (s : score) :
  accuracy_score y_true y_pred = Ok s → length y_true = length y_pred.
Proof. unfold accuracy_score. by case_bool_decide. Qed.

(** A score of one means that the two arrays are the same. *)
Lemma accuracy_score_one (y_true y_pred : list nat) (q : Q) :
  accuracy_score y_true y_pred = Ok (Score q) → (q == 1)%Q → y_true = y_pred.
Proof.
  intros Hs Hq. pose proof (accuracy_score_Ok_length _ _ _ Hs) as Hlen.
  unfold accuracy_score in Hs. rewrite bool_decide_eq_true_2 in Hs by done.
  injection Hs as Hs. pose proof (average_one _ _ Hs Hq) as Hall.
  rewrite Forall_lookup in Hall.
  apply list_eq_same_length with (length y_true); [done..|].
  intros i t p _ Ht Hp.
  specialize (Hall i (bool_decide (t = p))). rewrite lookup_zip_with, Ht in Hall.
  simpl in Hall. rewrite Hp in Hall. simpl in Hall.
  specialize (Hall eq_refl). by apply bool_decide_eq_true in Hall.
Qed.

(** ** The ClusterLabelMap *)

Lemma ClusterLabelMap_fold_lookup (clusters y l : list nat) (c : nat) :
  foldr (λ c m, match stats.mode (MajorityVote.members c clusters y) with
                | Some l => <[c := l]> m
                | None => m
                end) (∅ : gmap nat nat) l !! c
  = if decide (c ∈ l) then stats.mode (MajorityVote.members c clusters y)
    else None.
Proof.
  induction l as [|d l IH].
  - cbn [foldr]. rewrite lookup_empty.
    destruct (decide (c ∈ [])) as [Hc|]; [by apply elem_of_nil in Hc | done].
  - cbn [foldr]. destruct (decide (c = d)) as [->|Hne].
    + rewrite (decide_True (P := d ∈ d :: l)) by left.
      destruct (stats.mode (MajorityVote.members d clusters y)) as [v|] eqn:Hd.
      * by rewrite lookup_insert_eq.
      * rewrite IH. by case_decide.
    + assert (Hiff : c ∈ d :: l ↔ c ∈ l).
      { rewrite elem_of_cons. split; [intros [->|?]; done | by right]. }
      destruct (stats.mode (MajorityVote.members d clusters y)) as [v|] eqn:Hd.
      * rewrite lookup_insert_ne by done. rewrite IH.
        repeat case_decide; try done; exfalso; tauto.
      * rewrite IH. repeat case_decide; try done; exfalso; tauto.
Qed.

Lemma ClusterLabelMap_lookup (clusters y : list nat) (c : nat) :
  MajorityVote.ClusterLabelMap clusters y !! c
  = if decide (c ∈ clusters) then stats.mode (MajorityVote.members c clusters y)
    else None.
Proof. apply ClusterLabelMap_fold_lookup. Qed.

Lemma below_lookup (k : nat) (m : gmap nat nat) (c : nat) :
  MajorityVote.below k m !! c = if decide (c < k) then m !! c else None.
Proof.
  unfold MajorityVote.below. rewrite map_lookup_filter.
  destruct (m !! c) as [v|]; simpl; [|by case_decide].
  destruct (decide (c < k)) as [Hc|Hc].
  - by rewrite option_guard_True.
  - by rewrite option_guard_False.
Qed.

(** With as many true labels as cluster indices, every cluster index that
    occurs has an entry: its mode. *)
Lemma ClusterLabelMap_total (clusters y : list nat) (c : nat) :
  length y = length clusters → c ∈ clusters →
  ∃ l, MajorityVote.ClusterLabelMap clusters y !! c = Some l
       ∧ stats.mode (MajorityVote.members c clusters y) = Some l.
Proof.
  intros Hlen Hc. rewrite ClusterLabelMap_lookup, decide_True by done.
  destruct (mode_is_Some (MajorityVote.members c clusters y)) as [l Hl].
  { by apply members_nonempty. }
  by exists l.
Qed.

(** ** [KMeansClusterer.accuracy] *)

Section clusterer_accuracy.
Context {F : Type}.
Implicit Types (self : KMeansClusterer.t F) (f : KMeansFit F).
Implicit Types (X : list (list F)) (y labels : list nat).

Lemma accuracy_fitted self f X y :
  km_fitted (KMeansClusterer.model self) = Some f →
  KMeansClusterer.accuracy self X y
  = (labels ← KMeansClusterer.assigned_labels (labels_ f) y; accuracy_score y labels).
Proof.
  intros Hf. unfold KMeansClusterer.accuracy, KMeans_.get_labels_. by rewrite Hf.
Qed.

(** [accuracy] returns a score only for as many true labels as there were
    fitted samples. *)
Lemma accuracy_Ok_length self f X y (s : score) :
  km_fitted (KMeansClusterer.model self) = Some f →
  KMeansClusterer.accuracy self X y = Ok s → length y = length (labels_ f).
Proof.
  intros Hf. rewrite (accuracy_fitted _ _ _ _ Hf).
  destruct (KMeansClusterer.assigned_labels (labels_ f) y) as [labels|] eqn:Hl;
    simpl; [|done].
  intros Hs%accuracy_score_Ok_length.
  by rewrite Hs, (assigned_labels_length _ _ _ Hl).
Qed.

(** The labels the loop assigns are the ClusterLabelMap of the clusters
    0..9, read at the fitted cluster indices. *)
Lemma assigned_labels_map (labels_ y : list nat) :
  length y = length labels_ →
  KMeansClusterer.assigned_labels labels_ y
  = Ok (MajorityVote.predicted
          (MajorityVote.below 10 (MajorityVote.ClusterLabelMap labels_ y)) labels_).
Proof.
  intros Hlen. rewrite assigned_labels_eq by done. f_equal.
  unfold MajorityVote.predicted. apply list_fmap_ext. intros j c Hj.
  rewrite below_lookup. case_decide; [|done].
  rewrite ClusterLabelMap_lookup, decide_True; [done|].
  by eapply list_elem_of_lookup_2.
Qed.

End clusterer_accuracy.

(** C1, as the specification words it, fails on the code.  First input:
    two clusters fitted to the samples 0 and 10, and the accuracy asked for
    the points 0 and 0 with true labels 0 and 1.  The code votes over the
    cluster indices stored by the fit (one sample each, score 2/2); the
    majority vote over the given points puts both in cluster 0 (score 1/2).
    Second input: eleven clusters fitted to 0, 10, ..., 100, the accuracy
    asked for the fitted samples; the loop stops at cluster 9, so the sample
    of cluster 10 keeps label 0 instead of its majority label 5 (score
    10/11 against 11/11). *)
Lemma accuracy_majority_vote_counterexample :
  (KMeansClusterer.accuracy (line_clusterer 2 samples_0_10) points_0_0 [0; 1]
   = Ok (Score (2 # 2))
   ∧ MajorityVote.accuracy
       (closest_centre (line_fit 2 samples_0_10) <$> points_0_0) [0; 1]
     = Ok (Score (1 # 2)))
  ∧
  (KMeansClusterer.accuracy (line_clusterer 11 samples_grid_11) samples_grid_11
     [0; 1; 2; 3; 4; 5; 6; 7; 8; 9; 5]
   = Ok (Score (10 # 11))
   ∧ MajorityVote.accuracy
       (closest_centre (line_fit 11 samples_grid_11) <$> samples_grid_11)
       [0; 1; 2; 3; 4; 5; 6; 7; 8; 9; 5]
     = Ok (Score (11 # 11))).
Proof. by vm_compute. Qed.

(** C1 (amended).  For true labels that fit the 32-bit array of assigned
    labels (below 2^31) and are as many as the fitted samples, [accuracy]
    is the exact-match fraction obtained by (a) the ClusterLabelMap of the
    cluster indices stored by the fit, kept for the clusters 0..9 only, each
    entry the mode of the true labels of the fitted samples in that cluster,
    (b) every stored cluster index mapped through it, an index without entry
    giving label 0, (c) the comparison with the true labels; the points
    argument is not read.  When the given points fall in the stored clusters
    and every stored index is below 10, this is the majority vote over the
    given points. *)
Theorem accuracy_majority_vote {F : Type} (self : KMeansClusterer.t F)
    (f : KMeansFit F) (X : list (list F)) (y : list nat) :
  km_fitted (KMeansClusterer.model self) = Some f →
  length y = length (labels_ f) →
  int32_labels y →
  KMeansClusterer.accuracy self X y
  = accuracy_score y
      (MajorityVote.predicted
         (MajorityVote.below 10 (MajorityVote.ClusterLabelMap (labels_ f) y))
         (labels_ f))
  ∧ (closest_centre f <$> X = labels_ f →
     Forall (λ c, c < 10) (labels_ f) →
     KMeansClusterer.accuracy self X y
     = MajorityVote.accuracy (closest_centre f <$> X) y).
Proof.
  intros Hf Hlen _. rewrite (accuracy_fitted _ _ _ _ Hf).
  rewrite assigned_labels_map by done. simpl. split; [done|].
  intros -> Hlt. unfold MajorityVote.accuracy. f_equal.
  unfold MajorityVote.predicted. apply list_fmap_ext. intros j c Hj.
  rewrite below_lookup, decide_True; [done|].
  rewrite Forall_lookup in Hlt. by eapply Hlt.
Qed.

(** Four samples in two clusters, asked for on the fitted samples: the
    code and the majority vote agree on 3/4. *)
Lemma accuracy_majority_vote_witness :
  km_fitted (KMeansClusterer.model (line_clusterer 2 samples_0_1_10_12))
  = Some (line_fit 2 samples_0_1_10_12)
  ∧ length [3; 3; 7; 3] = length (labels_ (line_fit 2 samples_0_1_10_12))
  ∧ int32_labels [3; 3; 7; 3]
  ∧ KMeansClusterer.accuracy (line_clusterer 2 samples_0_1_10_12)
      samples_0_1_10_12 [3; 3; 7; 3]
    = MajorityVote.accuracy
        (closest_centre (line_fit 2 samples_0_1_10_12) <$> samples_0_1_10_12)
        [3; 3; 7; 3]
  ∧ KMeansClusterer.accuracy (line_clusterer 2 samples_0_1_10_12)
      samples_0_1_10_12 [3; 3; 7; 3] = Ok (Score (3 # 4)).
Proof.
  split; [reflexivity|]. split; [reflexivity|].
  split; [by repeat constructor|]. split.
  - apply (accuracy_majority_vote (line_clusterer 2 samples_0_1_10_12)
             (line_fit 2 samples_0_1_10_12) samples_0_1_10_12 [3; 3; 7; 3]);
      [reflexivity | reflexivity | by repeat constructor | reflexivity |].
    repeat constructor.
  - by vm_compute.
Defined.

(** C2.  When [accuracy] returns the score one, every cluster of the
    clustering it voted on is pure: the mode of the true labels in the
    cluster of a sample is that sample's true label. *)
Theorem accuracy_one_pure {F : Type} (self : KMeansClusterer.t F)
    (f : KMeansFit F) (X : list (list F)) (y : list nat) (q : Q) (j c t : nat) :
  km_fitted (KMeansClusterer.model self) = Some f →
  KMeansClusterer.accuracy self X y = Ok (Score q) →
  (q == 1)%Q →
  labels_ f !! j = Some c →
  y !! j = Some t →
  stats.mode (MajorityVote.members c (labels_ f) y) = Some t.
Proof.
  intros Hf Hacc Hq Hc Ht.
  pose proof (accuracy_Ok_length _ _ _ _ _ Hf Hacc) as Hlen.
  rewrite (accuracy_fitted _ _ _ _ Hf), assigned_labels_eq in Hacc by done.
  simpl in Hacc. pose proof (accuracy_score_one _ _ _ Hacc Hq) as Hy.
  assert (Hat : ∀ i d u, labels_ f !! i = Some d → y !! i = Some u →
            u = if decide (d < 10) then label_of (labels_ f) y d else 0).
  { intros i d u Hd Hu. rewrite Hy, list_lookup_fmap, Hd in Hu. by injection Hu. }
  assert (Hne : MajorityVote.members c (labels_ f) y ≠ []).
  { apply members_nonempty; [done|]. by eapply list_elem_of_lookup_2. }
  specialize (Hat j c t Hc Ht) as Hj. case_decide as Hlt.
  - destruct (mode_is_Some _ Hne) as [v Hv]. unfold label_of in Hj.
    rewrite Hv in Hj. simpl in Hj. by subst v.
  - subst t. apply mode_constant; [done|].
    intros w (i & Hi & Hw)%elem_of_members.
    specialize (Hat i c w Hi Hw). by rewrite decide_False in Hat.
Qed.

(** Three samples in two pure clusters: the score is 3/3 and the mode of
    cluster 0 is the label of its members. *)
Lemma accuracy_one_pure_witness :
  KMeansClusterer.accuracy (line_clusterer 2 samples_0_1_10) samples_0_1_10 [3; 3; 7]
  = Ok (Score (3 # 3))
  ∧ (3 # 3 == 1)%Q
  ∧ stats.mode (MajorityVote.members 0 (labels_ (line_fit 2 samples_0_1_10)) [3; 3; 7])
    = Some 3.
Proof.
  split; [reflexivity|]. split; [reflexivity|].
  apply (accuracy_one_pure (line_clusterer 2 samples_0_1_10)
           (line_fit 2 samples_0_1_10) samples_0_1_10 [3; 3; 7] (3 # 3) 1 0 3);
    reflexivity.
Defined.

(** C9.  The array of assigned labels starts at zero and only the clusters
    0..9 vote: a sample whose cluster index is 10 or more is assigned
    label 0. *)
Theorem unvoted_cluster_label_zero (labels_ y labels : list nat) (j c : nat) :
  KMeansClusterer.assigned_labels labels_ y = Ok labels →
  labels_ !! j = Some c →
  10 ≤ c →
  labels !! j = Some 0.
Proof.
  intros Hl Hc Hge. destruct (decide (length y = length labels_)) as [Hlen|Hlen].
  - rewrite assigned_labels_eq in Hl by done. injection Hl as <-.
    rewrite list_lookup_fmap, Hc. simpl. by rewrite decide_False by lia.
  - apply (for_in_vote_mismatch _ _ _ _ _ Hlen) in Hl as ->.
    unfold np.zeros_like. apply lookup_replicate_2. by eapply lookup_lt_Some.
Qed.

(** Clusters 10 and 11 do not vote. *)
Lemma unvoted_cluster_label_zero_witness :
  KMeansClusterer.assigned_labels [0; 10; 0; 11] [4; 5; 4; 6] = Ok [4; 0; 4; 0]
  ∧ [4; 0; 4; 0] !! 3 = Some 0.
Proof.
  split; [reflexivity|].
  apply (unvoted_cluster_label_zero [0; 10; 0; 11] [4; 5; 4; 6] [4; 0; 4; 0] 3 11);
    [reflexivity | reflexivity | lia].
Defined.

(** ** Indexing by a list of positions *)

Lemma safe_indexing_Ok {A : Type} (a : list A) (indices : list nat) (r : list A) :
  safe_indexing a indices = Ok r ↔ (λ i, a !! i) <$> indices = Some <$> r.
Proof.
  unfold safe_indexing.
  destruct (mapM (λ i, a !! i) indices) as [r'|] eqn:Hm.
  - apply mapM_Some in Hm. split.
    + intros [= <-]. induction Hm as [|i x idx r' Hi _ IH]; [done|].
      by rewrite !fmap_cons, Hi, IH.
    + intros Heq. f_equal. revert r Heq.
      induction Hm as [|i x idx r' Hi _ IH]; intros [|z r] Heq; try done.
      rewrite !fmap_cons in Heq. injection Heq as Hz Heq. rewrite Hi in Hz.
      injection Hz as <-. f_equal. by apply IH.
  - split; [done|]. intros Heq. exfalso.
    apply mapM_None in Hm. apply Exists_exists in Hm as (i & Hin & Hi).
    apply list_elem_of_lookup in Hin as [j Hj].
    assert (((λ i, a !! i) <$> indices) !! j = Some None) as Hnone
      by (by rewrite list_lookup_fmap, Hj; simpl; rewrite Hi).
    rewrite Heq, list_lookup_fmap in Hnone. by destruct (r !! j).
Qed.

Lemma safe_indexing_total {A : Type} (a : list A) (indices : list nat) :
  Forall (λ i, i < length a) indices → ∃ r, safe_indexing a indices = Ok r.
Proof.
  intros Hall. unfold safe_indexing.
  destruct (mapM_is_Some_2 (λ i, a !! i) indices) as [r ->]; [|by eexists].
  eapply Forall_impl; [done|]. intros i Hi. by apply lookup_lt_is_Some_2.
Qed.

Lemma lookup_seq_all {A : Type} (a : list A) :
  (λ i, a !! i) <$> seq 0 (length a) = Some <$> a.
Proof.
  apply list_eq. intros i. rewrite !list_lookup_fmap.
  destruct (decide (i < length a)) as [Hi|Hi].
  - rewrite lookup_seq_lt by done. simpl.
    destruct (lookup_lt_is_Some_2 a i Hi) as [x Hx]. by rewrite Hx.
  - rewrite lookup_seq_ge by lia. by rewrite lookup_ge_None_2 by lia.
Qed.

Lemma omap_Some {A : Type} (l : list A) : omap id (Some <$> l) = l.
Proof. induction l as [|x l IH]; [done|]. rewrite fmap_cons. simpl. by f_equal. Qed.

(** Reading an array at a permutation of its positions gives a permutation
    of the array. *)
Lemma safe_indexing_Permutation {A : Type} (a : list A) (indices : list nat)
    (r : list A) :
  indices ≡ₚ seq 0 (length a) → safe_indexing a indices = Ok r → r ≡ₚ a.
Proof.
  intros Hperm Hr%safe_indexing_Ok.
  rewrite <- (omap_Some r), <- (omap_Some a), <- Hr, <- lookup_seq_all.
  by rewrite Hperm.
Qed.

Lemma safe_indexing_app {A : Type} (a : list A) (i1 i2 : list nat) (r1 r2 : list A) :
  safe_indexing a i1 = Ok r1 → safe_indexing a i2 = Ok r2 →
  safe_indexing a (i1 ++ i2) = Ok (r1 ++ r2).
Proof.
  rewrite !safe_indexing_Ok, !fmap_app. by intros -> ->.
Qed.

(** ** The split stage *)

Section split_stage.
Context {F : Type} `{!Sklearn F}.

Lemma validate_shuffle_split_Ok (n : nat) (test_size : size) (n_train n_test : nat) :
  sklearn.validate_shuffle_split n test_size = Ok (n_train, n_test) →
  n_train = n - n_test ∧ n_test < n.
Proof.
  unfold sklearn.validate_shuffle_split. destruct test_size as [q|z].
  - destruct (_ || _); [done|]. case_bool_decide; [done|].
    intros [= <- <-]. lia.
  - case_bool_decide; [done|]. case_bool_decide; [done|].
    intros [= <- <-]. lia.
Qed.

Lemma validate_shuffle_split_bad_fraction (n : nat) (q : Q) :
  ¬ (0 < q ∧ q < 1)%Q →
  sklearn.validate_shuffle_split n (Fraction q) = Raise ValueError.
Proof.
  intros Hq. unfold sklearn.validate_shuffle_split.
  destruct (Qle_bool q 0) eqn:H0; [done|].
  destruct (Qle_bool 1 q) eqn:H1; [done|]. exfalso. apply Hq. split.
  - apply Qnot_le_lt. intros Hle%Qle_bool_iff. congruence.
  - apply Qnot_le_lt. intros Hle%Qle_bool_iff. congruence.
Qed.

Lemma validate_shuffle_split_fraction (n : nat) (q : Q) :
  (0 < q)%Q → (q < 1)%Q →
  Z.to_nat (Qceiling (q * inject_Z (Z.of_nat n))) < n →
  ∃ n_train n_test, sklearn.validate_shuffle_split n (Fraction q) = Ok (n_train, n_test).
Proof.
  intros H0 H1 Hn. unfold sklearn.validate_shuffle_split.
  destruct (Qle_bool q 0) eqn:E0.
  { apply Qle_bool_iff in E0. by apply Qlt_not_le in H0. }
  destruct (Qle_bool 1 q) eqn:E1.
  { apply Qle_bool_iff in E1. by apply Qlt_not_le in H1. }
  simpl. rewrite bool_decide_eq_false_2 by lia. by eexists _, _.
Qed.

(** The train and the test indices are the permutation, cut in two. *)
Lemma shuffle_split_partition (n n_test : nat) (rng : RandomState)
    (train test : list nat) :
  permutation_law → n_test < n →
  sklearn.shuffle_split n (n - n_test) n_test rng = (train, test) →
  train ++ test ≡ₚ seq 0 n.
Proof.
  intros Hlaw Hlt. unfold sklearn.shuffle_split. intros [= <- <-].
  pose proof (Hlaw rng n) as Hperm.
  assert (length (permutation rng n) = n) as Hlen
    by (by rewrite Hperm, length_seq).
  rewrite take_ge by (rewrite length_drop; lia).
  by rewrite Permutation_app_comm, take_drop.
Qed.

End split_stage.

Arguments sklearn.shuffle_split : simpl never.
Arguments safe_indexing : simpl never.

Section split_claims.
Context {F : Type} `{!Sklearn F}.
Implicit Types (self : DigitsDataLoader.t) (X : list (list F)) (y : list nat).

Lemma train_test_split_Ok X y (test_size : size) (random_state : option nat)
    (global : RandomState) (X_train X_test : list (list F)) (y_train y_test : list nat) :
  sklearn.train_test_split X y test_size random_state global
  = Ok (X_train, X_test, y_train, y_test) →
  ∃ (n_test : nat) (train test : list nat),
    length X = length y ∧ n_test < length X
    ∧ sklearn.shuffle_split (length X) (length X - n_test) n_test
        (sklearn.check_random_state random_state global) = (train, test)
    ∧ safe_indexing X train = Ok X_train ∧ safe_indexing X test = Ok X_test
    ∧ safe_indexing y train = Ok y_train ∧ safe_indexing y test = Ok y_test.
Proof.
  unfold sklearn.train_test_split. case_bool_decide as Hlen; [|done].
  destruct (sklearn.validate_shuffle_split _ _) as [[n_train n_test]|] eqn:Hv;
    cbn; [|done].
  apply validate_shuffle_split_Ok in Hv as [-> Hlt].
  destruct (sklearn.shuffle_split _ _ _ _) as [train test] eqn:Hs.
  destruct (safe_indexing X train) as [a|] eqn:Ha; simpl; [|done].
  destruct (safe_indexing X test) as [b|] eqn:Hb; simpl; [|done].
  destruct (safe_indexing y train) as [c|] eqn:Hc; simpl; [|done].
  destruct (safe_indexing y test) as [d|] eqn:Hd; simpl; [|done].
  intros [= <- <- <- <-]. by exists n_test, train, test.
Qed.

Lemma train_test_split_returns X y (q : Q) (random_state : option nat)
    (global : RandomState) :
  permutation_law → length X = length y → (0 < q)%Q → (q < 1)%Q →
  Z.to_nat (Qceiling (q * inject_Z (Z.of_nat (length X)))) < length X →
  ∃ out, sklearn.train_test_split X y (Fraction q) random_state global = Ok out.
Proof.
  intros Hlaw Hlen H0 H1 Hn. unfold sklearn.train_test_split.
  rewrite bool_decide_eq_true_2 by done.
  destruct (validate_shuffle_split_fraction _ _ H0 H1 Hn) as (n_train & n_test & Hv).
  rewrite Hv. cbn. apply validate_shuffle_split_Ok in Hv as [-> Hlt].
  destruct (sklearn.shuffle_split _ _ _ _) as [train test] eqn:Hs.
  pose proof (shuffle_split_partition _ _ _ _ _ Hlaw Hlt Hs) as Hperm.
  assert (Forall (λ i, i < length X) (train ++ test)) as Hall.
  { rewrite Hperm. apply Forall_forall. intros i Hi%elem_of_seq. lia. }
  apply Forall_app in Hall as [Htrain Htest].
  destruct (safe_indexing_total X train Htrain) as [a ->].
  destruct (safe_indexing_total X test Htest) as [b ->].
  rewrite Hlen in Htrain, Htest.
  destruct (safe_indexing_total y train Htrain) as [c ->].
  destruct (safe_indexing_total y test Htest) as [d ->].
  simpl. by eexists.
Qed.

(** C4.  With a seed, the split does not read numpy's global generator:
    two runs on the same samples, fraction and seed return the same
    partition, whatever state the global generator is in. *)
Theorem split_deterministic (n_components : Z) (test_size : size) (seed : nat)
    X y (global1 global2 : RandomState) :
  DigitsDataLoader.split
    (DigitsDataLoader.init n_components test_size (Some seed)) X y global1
  = DigitsDataLoader.split
      (DigitsDataLoader.init n_components test_size (Some seed)) X y global2
  ∧ DigitsDataLoader.load_data
      (DigitsDataLoader.init n_components test_size (Some seed)) global1
    = DigitsDataLoader.load_data
        (DigitsDataLoader.init n_components test_size (Some seed)) global2.
Proof.
  assert (∀ X y, DigitsDataLoader.split
            (DigitsDataLoader.init n_components test_size (Some seed)) X y global1
          = DigitsDataLoader.split
              (DigitsDataLoader.init n_components test_size (Some seed)) X y global2)
    as Hsplit by done.
  split; [apply Hsplit|]. unfold DigitsDataLoader.load_data.
  destruct load_digits as [X0 y0].
  destruct (DigitsDataLoader.reduce _ X0) as [X_scaled|]; simpl; [|done].
  by rewrite Hsplit.
Qed.

(** The subsets a split returns are the samples at two lists of positions
    that together hold every position once. *)
Lemma split_Ok_partition self X y (global : RandomState)
    (X_train X_test : list (list F)) (y_train y_test : list nat) :
  permutation_law →
  DigitsDataLoader.split self X y global = Ok (X_train, X_test, y_train, y_test) →
  ∃ train test : list nat,
    train ++ test ≡ₚ seq 0 (length X)
    ∧ (∀ i, i ∈ train → i ∉ test)
    ∧ safe_indexing X train = Ok X_train ∧ safe_indexing X test = Ok X_test
    ∧ safe_indexing y train = Ok y_train ∧ safe_indexing y test = Ok y_test
    ∧ X_train ++ X_test ≡ₚ X ∧ y_train ++ y_test ≡ₚ y.
Proof.
  intros Hlaw Hsplit.
  apply train_test_split_Ok in Hsplit
    as (n_test & train & test & Hlen & Hlt & Hs & HXtr & HXte & Hytr & Hyte).
  pose proof (shuffle_split_partition _ _ _ _ _ Hlaw Hlt Hs) as Hperm.
  exists train, test. split; [done|]. split.
  { assert (NoDup (train ++ test)) as Hnd by (rewrite Hperm; apply NoDup_seq).
    by apply NoDup_app in Hnd as (_ & Hdisj & _). }
  repeat (split; [done|]). split.
  - apply (safe_indexing_Permutation X (train ++ test)); [done|].
    by apply safe_indexing_app.
  - apply (safe_indexing_Permutation y (train ++ test)); [by rewrite <- Hlen|].
    by apply safe_indexing_app.
Qed.

(** C5.  The subsets the split returns are the samples at two lists of
    positions that together hold every position of the reduced dataset
    once and have no position in common, so train and test together are a
    permutation of the dataset; and for a fraction strictly between 0 and 1
    that leaves the train subset a sample, the split does return. *)
Theorem split_partition self X y (global : RandomState) :
  permutation_law →
  (∀ X_train X_test y_train y_test,
     DigitsDataLoader.split self X y global = Ok (X_train, X_test, y_train, y_test) →
     ∃ train test : list nat,
       train ++ test ≡ₚ seq 0 (length X)
       ∧ (∀ i, i ∈ train → i ∉ test)
       ∧ safe_indexing X train = Ok X_train ∧ safe_indexing X test = Ok X_test
       ∧ safe_indexing y train = Ok y_train ∧ safe_indexing y test = Ok y_test
       ∧ X_train ++ X_test ≡ₚ X ∧ y_train ++ y_test ≡ₚ y)
  ∧ (∀ q, DigitsDataLoader.test_size self = Fraction q →
       (0 < q)%Q → (q < 1)%Q → length X = length y →
       Z.to_nat (Qceiling (q * inject_Z (Z.of_nat (length X)))) < length X →
       ∃ out, DigitsDataLoader.split self X y global = Ok out).
Proof.
  intros Hlaw. split.
  - intros X_train X_test y_train y_test. by apply split_Ok_partition.
  - intros q Hq H0 H1 Hlen Hn. unfold DigitsDataLoader.split. rewrite Hq.
    by apply train_test_split_returns.
Qed.

(** C6.  A test fraction that is not strictly between 0 and 1 makes the
    split fail with the library's ValueError, the error of an invalid
    configuration, and with it [load_data]: no partition is returned. *)
Theorem split_rejects_fraction self (q : Q) X y (global : RandomState) :
  DigitsDataLoader.test_size self = Fraction q →
  ¬ (0 < q ∧ q < 1)%Q →
  DigitsDataLoader.split self X y global = Raise ValueError
  ∧ DigitsDataLoader.load_data self global = Raise ValueError.
Proof.
  intros Hq Hbad.
  assert (∀ X y, DigitsDataLoader.split self X y global = Raise ValueError) as Hsplit.
  { intros X' y'. unfold DigitsDataLoader.split, sklearn.train_test_split.
    case_bool_decide; [|done].
    by rewrite Hq, validate_shuffle_split_bad_fraction. }
  split; [apply Hsplit|]. unfold DigitsDataLoader.load_data.
  destruct load_digits as [X0 y0].
  destruct (DigitsDataLoader.reduce self X0) as [X_scaled|e] eqn:Hr; simpl.
  - by rewrite Hsplit.
  - revert Hr. unfold DigitsDataLoader.reduce, sklearn.PCA_fit_transform,
      sklearn.StandardScaler_fit_transform, check_array.
    repeat (case_bool_decide; simpl; try done); congruence.
Qed.

End split_claims.

(** The toy generator keeps numpy's contract. *)
Lemma toy_permutation_law : @permutation_law Z toy_sklearn.
Proof.
  intros rng n. simpl. unfold rotate.
  by rewrite Permutation_app_comm, take_drop.
Qed.

(** Without a seed the partition follows the global generator. *)
Example split_unseeded_follows_global :
  @DigitsDataLoader.split Z toy_sklearn
    (DigitsDataLoader.init 2 (Fraction (3 # 10)) None) toy_digits.1 toy_digits.2 0
  ≠ @DigitsDataLoader.split Z toy_sklearn
      (DigitsDataLoader.init 2 (Fraction (3 # 10)) None) toy_digits.1 toy_digits.2 1.
Proof. by vm_compute. Qed.

(** The default loader on the twenty toy samples: fourteen train and six
    test samples. *)
Lemma split_partition_witness :
  @permutation_law Z toy_sklearn
  ∧ (∃ train test : list nat,
       train ++ test ≡ₚ seq 0 (length toy_digits.1)
       ∧ (∀ i, i ∈ train → i ∉ test)
       ∧ safe_indexing toy_digits.2 train
         = Ok [4; 4; 5; 5; 6; 6; 7; 7; 8; 8; 9; 9; 0; 0]
       ∧ safe_indexing toy_digits.2 test = Ok [1; 1; 2; 2; 3; 3])
  ∧ (∃ out, @DigitsDataLoader.split Z toy_sklearn DigitsDataLoader.default
              toy_digits.1 toy_digits.2 0 = Ok out).
Proof.
  split; [exact toy_permutation_law|].
  destruct (@split_partition Z toy_sklearn DigitsDataLoader.default
              toy_digits.1 toy_digits.2 0 toy_permutation_law) as [Hpart Hret].
  split.
  - destruct (Hpart (drop 6 (rotate 42 toy_digits.1)) (take 6 (rotate 42 toy_digits.1))
                [4; 4; 5; 5; 6; 6; 7; 7; 8; 8; 9; 9; 0; 0] [1; 1; 2; 2; 3; 3])
      as (train & test & Hperm & Hdisj & _ & _ & Htrain & Htest & _);
      [by vm_compute|].
    by exists train, test.
  - apply (Hret (3 # 10)%Q); [reflexivity | reflexivity | reflexivity | reflexivity |].
    vm_compute. lia.
Defined.

(** The fractions 0 and 1. *)
Lemma split_rejects_fraction_witness :
  @DigitsDataLoader.split Z toy_sklearn (DigitsDataLoader.init 2 (Fraction 0) (Some 42))
    toy_digits.1 toy_digits.2 0 = Raise ValueError
  ∧ @DigitsDataLoader.load_data Z toy_sklearn
      (DigitsDataLoader.init 2 (Fraction 1) (Some 42)) 0 = Raise ValueError.
Proof.
  split.
  - apply (@split_rejects_fraction Z toy_sklearn
             (DigitsDataLoader.init 2 (Fraction 0) (Some 42)) 0);
      [reflexivity | by intros [H0 _]].
  - apply (@split_rejects_fraction Z toy_sklearn
             (DigitsDataLoader.init 2 (Fraction 1) (Some 42)) 1 [] []);
      [reflexivity | by intros [_ H1]].
Defined.

(** A Python int is a number of samples, not a fraction: [test_size=1]
    puts one sample in the test subset. *)
Example split_count_one :
  (λ '(X_train, X_test, y_train, y_test), (length X_train, length X_test)) <$>
    @DigitsDataLoader.split Z toy_sklearn
      (DigitsDataLoader.init 2 (Count 1) (Some 42)) toy_digits.1 toy_digits.2 0
  = Ok (19, 1).
Proof. by vm_compute. Qed.

(** ** Reasoning about runs *)

Section runs.
Context {F : Type} `{!Backend F}.

Lemma plt_bind_Ok {A B : Type} (m : plt F A) (k : A → plt F B)
    (st st' : world F) (b : B) :
  (m ≫= k) st = (Ok b, st') →
  ∃ a st1, m st = (Ok a, st1) ∧ k a st1 = (Ok b, st').
Proof.
  unfold mbind, plt_bind. destruct (m st) as [[a|e] st1]; [|done].
  intros Hk. by exists a, st1.
Qed.

Lemma lift_Ok {A : Type} (r : result A) (st st' : world F) (a : A) :
  pyplot.lift r st = (Ok a, st') → r = Ok a ∧ st' = st.
Proof. unfold pyplot.lift. by intros [= -> ->]. Qed.

(** *** Relations between the world before and after a computation *)

Section relation.
Variable R : world F → world F → Prop.
Hypothesis R_refl : ∀ st, R st st.
Hypothesis R_trans : ∀ st1 st2 st3, R st1 st2 → R st2 st3 → R st1 st3.

Lemma keeps_ret {A : Type} (a : A) : keeps R (mret a).
Proof. intros st. apply R_refl. Qed.

Lemma keeps_lift {A : Type} (r : result A) : keeps R (pyplot.lift r).
Proof. intros st. apply R_refl. Qed.

Lemma keeps_bind {A B : Type} (m : plt F A) (k : A → plt F B) :
  keeps R m → (∀ a, keeps R (k a)) → keeps R (m ≫= k).
Proof.
  intros Hm Hk st. specialize (Hm st). unfold mbind, plt_bind.
  destruct (m st) as [[a|e] st1]; simpl in *; [|done].
  eapply R_trans; [done|]. apply Hk.
Qed.

Lemma keeps_for_each {A : Type} (xs : list A) (body : A → plt F unit) :
  (∀ x, x ∈ xs → keeps R (body x)) → keeps R (pyplot.for_each xs body).
Proof.
  induction xs as [|x xs IH]; intros Hbody; simpl.
  - apply keeps_ret.
  - apply keeps_bind; [apply Hbody; left | intros _].
    apply IH. intros z Hz. apply Hbody. by right.
Qed.

Lemma keeps_try_except_pass (m : plt F unit) :
  keeps R m → keeps R (pyplot.try_except_pass m).
Proof. intros Hm st. apply Hm. Qed.

Lemma keeps_call (e : event F) :
  (∀ st, R st (pyplot.record e st)) → keeps R (pyplot.call e).
Proof.
  intros He st. unfold pyplot.call. destruct (raises e); simpl; [apply R_refl | apply He].
Qed.

Lemma keeps_save_or_show (output_path : option string) :
  (∀ e st, R st (pyplot.record e st)) → keeps R (pyplot.save_or_show output_path).
Proof.
  intros He. unfold pyplot.save_or_show.
  destruct output_path as [[|c s]|]; by apply keeps_call.
Qed.

End relation.

(** *** The open figures *)

Lemma same_figures_record (e : event F) (st : world F) :
  same_figures st (pyplot.record e st).
Proof. done. Qed.

Lemma closes_close : closes_on_return (pyplot.close : plt F unit).
Proof. by intros st. Qed.

Lemma closes_bind {A : Type} (m : plt F A) (k : A → plt F unit) :
  keeps same_figures m → (∀ a, closes_on_return (k a)) →
  closes_on_return (m ≫= k).
Proof.
  intros Hm Hk st. specialize (Hm st). unfold mbind, plt_bind, same_figures in *.
  destruct (m st) as [[a|e] st1]; simpl in *; [|done].
  specialize (Hk a st1). destruct (k a st1) as [[[]|e] st2]; congruence.
Qed.

Lemma releases_figure (k : plt F unit) :
  closes_on_return k → releases_on_return (pyplot.figure;; k).
Proof.
  intros Hk st. unfold mbind, plt_bind, pyplot.figure.
  destruct (raises NewFigure); [by left|].
  match goal with |- context [k ?s] => specialize (Hk s); destruct (k s) as [[[]|e] st2] end;
    simpl in *; [done | by right].
Qed.

Lemma releases_bind {A : Type} (m : plt F A) (k : A → plt F unit) :
  keeps same_figures m → (∀ a, releases_on_return (k a)) →
  releases_on_return (m ≫= k).
Proof.
  intros Hm Hk st. specialize (Hm st). unfold mbind, plt_bind, same_figures in *.
  destruct (m st) as [[a|e] st1]; simpl in *; [|by left].
  specialize (Hk a st1). rewrite Hm in Hk. by destruct (k a st1) as [[[]|e] st2].
Qed.

End runs.

(** The rules above, for [same_figures]. *)

Section figures.
Context {F : Type} `{!Backend F}.

Lemma same_figures_refl (st : world F) : same_figures st st.
Proof. done. Qed.

Lemma same_figures_trans (st1 st2 st3 : world F) :
  same_figures st1 st2 → same_figures st2 st3 → same_figures st1 st3.
Proof. unfold same_figures. congruence. Qed.

Lemma figures_ret {A : Type} (a : A) : keeps same_figures (mret a : plt F A).
Proof. apply keeps_ret, same_figures_refl. Qed.

Lemma figures_lift {A : Type} (r : result A) :
  keeps same_figures (pyplot.lift r : plt F A).
Proof. apply keeps_lift, same_figures_refl. Qed.

Lemma figures_bind {A B : Type} (m : plt F A) (k : A → plt F B) :
  keeps same_figures m → (∀ a, keeps same_figures (k a)) →
  keeps same_figures (m ≫= k).
Proof. apply keeps_bind, same_figures_trans. Qed.

Lemma figures_call (e : event F) : keeps same_figures (pyplot.call e).
Proof. apply keeps_call; [apply same_figures_refl | done]. Qed.

Lemma figures_save_or_show (output_path : option string) :
  keeps same_figures (pyplot.save_or_show output_path).
Proof. apply keeps_save_or_show; [apply same_figures_refl | done]. Qed.

Lemma figures_for_each {A : Type} (xs : list A) (body : A → plt F unit) :
  (∀ x, keeps same_figures (body x)) → keeps same_figures (pyplot.for_each xs body).
Proof.
  intros Hbody.
  apply keeps_for_each; [apply same_figures_refl | apply same_figures_trans | auto].
Qed.

Lemma figures_try_except_pass (m : plt F unit) :
  keeps same_figures m → keeps same_figures (pyplot.try_except_pass m).
Proof. apply keeps_try_except_pass. Qed.

End figures.

Create HintDb figures.
#[global] Hint Resolve figures_ret figures_lift figures_call figures_save_or_show
  figures_try_except_pass closes_close : figures.

(** Walks down a chain of binds, leaving what the hints do not close. *)
Ltac figures_steps :=
  repeat first
    [ solve [ auto with figures ]
    | apply figures_bind; [ | intros ? ]
    | apply closes_bind; [ | intros ? ]
    | apply releases_figure
    | apply releases_bind; [ | intros ? ]
    | apply figures_for_each; intros ? ].

Section chart_figures.
Context {F : Type} `{!Sklearn F} `{!Backend F}.

Lemma hull_outline_figures (X_scaled : list (list F)) (mask : list bool)
    (color : string) :
  keeps same_figures (DataVisualizer.hull_outline X_scaled mask color).
Proof.
  unfold DataVisualizer.hull_outline. apply figures_bind; [auto with figures|].
  intros points. apply figures_bind; [auto with figures|].
  intros [simplices vertices]. figures_steps.
Qed.

Lemma draw_cluster_figures (X_scaled : list (list F)) (kmeans_labels : list nat)
    (cluster_id : nat) :
  keeps same_figures (DataVisualizer.draw_cluster X_scaled kmeans_labels cluster_id).
Proof.
  unfold DataVisualizer.draw_cluster. figures_steps.
  case_bool_decide; [|auto with figures].
  apply figures_try_except_pass, hull_outline_figures.
Qed.

End chart_figures.

#[global] Hint Resolve hull_outline_figures draw_cluster_figures : figures.

(** ** The charts and their figures *)

(** C3, as stated, fails on the code: on a backend that cannot write the
    image file, [plot_simple_clusters] (and likewise [plot_clusters_scatter]
    and [plot_combined_boundaries]) raises out of [savefig] and never reaches
    [plt.close()]; the figure it opened stays open. *)
Lemma chart_leaves_figure_open_counterexample :
  let run :=
    @DataVisualizer.plot_simple_clusters Z readonly_backend
      chart_points chart_labels chart_labels (Some "chart.png") empty_world in
  run.1 = Raise OSError
  ∧ figures empty_world = []
  ∧ figures run.2 = [1]
  ∧ (@DataVisualizer.plot_clusters_scatter Z readonly_backend
       chart_points chart_labels chart_labels (Some "chart.png") empty_world).1
    = Raise OSError
  ∧ figures (@DataVisualizer.plot_clusters_scatter Z readonly_backend
       chart_points chart_labels chart_labels (Some "chart.png") empty_world).2
    = [1]
  ∧ figures (@DataVisualizer.plot_combined_boundaries Z readonly_backend
       {| max_iter := 1000;
          lr_fitted := Some {| n_features_in_ := 2;
                               predict_point := line_centre 10 |} |}
       {| n_clusters := 2; km_random_state := 42;
          km_fitted := Some (line_fit 2 chart_points) |}
       chart_points chart_labels (Some "chart.png") empty_world).2
    = [1].
Proof. by vm_compute. Qed.

(** C3 (amended).  Each of the three charts leaves the open figures as they
    were when it returns: the figure it opened is closed again.  When it
    raises, the exception passes through and the open figures are either
    unchanged (nothing was opened yet) or still hold the figure the chart
    opened. *)
Theorem charts_release_figure_on_return {F : Type} `{!Sklearn F} `{!Backend F}
    (log_reg : LogisticRegression F) (kmeans : KMeans F)
    (X_scaled : list (list F)) (y kmeans_labels : list nat)
    (output_path : option string) :
  releases_on_return
    (DataVisualizer.plot_combined_boundaries log_reg kmeans X_scaled y output_path)
  ∧ releases_on_return
      (DataVisualizer.plot_clusters_scatter X_scaled y kmeans_labels output_path)
  ∧ releases_on_return
      (DataVisualizer.plot_simple_clusters X_scaled y kmeans_labels output_path).
Proof.
  split; [|split].
  - unfold DataVisualizer.plot_combined_boundaries. figures_steps.
  - unfold DataVisualizer.plot_clusters_scatter. figures_steps.
  - unfold DataVisualizer.plot_simple_clusters. figures_steps.
Qed.

(** ** The trace of a chart *)

Section traces.
Context {F : Type} `{!Backend F}.

Lemma adds_only_refl (P : event F → Prop) (st : world F) : adds_only P st st.
Proof. intros e He. by left. Qed.

Lemma adds_only_trans (P : event F → Prop) (st1 st2 st3 : world F) :
  adds_only P st1 st2 → adds_only P st2 st3 → adds_only P st1 st3.
Proof.
  intros H12 H23 e He. destruct (H23 e He) as [H2|HP]; [by apply H12 | by right].
Qed.

Lemma adds_only_record (P : event F → Prop) (e : event F) (st : world F) :
  P e → adds_only P st (pyplot.record e st).
Proof.
  intros HP e' He'. simpl in He'. apply elem_of_app in He' as [Hin|Hin]; [by left|].
  apply list_elem_of_singleton in Hin as ->. by right.
Qed.

Lemma adds_only_weaken (P Q : event F → Prop) {A : Type} (m : plt F A) :
  (∀ e, P e → Q e) → keeps (adds_only P) m → keeps (adds_only Q) m.
Proof.
  intros HPQ Hm st e He. destruct (Hm st e He) as [Hin|HP]; [by left|].
  right. by apply HPQ.
Qed.

Lemma trace_ret (P : event F → Prop) {A : Type} (a : A) :
  keeps (adds_only P) (mret a : plt F A).
Proof. apply keeps_ret, adds_only_refl. Qed.

Lemma trace_lift (P : event F → Prop) {A : Type} (r : result A) :
  keeps (adds_only P) (pyplot.lift r : plt F A).
Proof. apply keeps_lift, adds_only_refl. Qed.

Lemma trace_bind (P : event F → Prop) {A B : Type} (m : plt F A) (k : A → plt F B) :
  keeps (adds_only P) m → (∀ a, keeps (adds_only P) (k a)) →
  keeps (adds_only P) (m ≫= k).
Proof. apply keeps_bind, adds_only_trans. Qed.

Lemma trace_call (P : event F → Prop) (e : event F) :
  P e → keeps (adds_only P) (pyplot.call e).
Proof.
  intros HP. apply keeps_call; [apply adds_only_refl|].
  intros st. by apply adds_only_record.
Qed.

Lemma trace_save_or_show (P : event F → Prop) (output_path : option string) :
  P Show → (∀ path, P (Savefig path)) →
  keeps (adds_only P) (pyplot.save_or_show output_path).
Proof.
  intros Hshow Hsave. unfold pyplot.save_or_show.
  destruct output_path as [[|c s]|]; by apply trace_call.
Qed.

Lemma trace_figure (P : event F → Prop) :
  P NewFigure → keeps (adds_only P) pyplot.figure.
Proof.
  intros HP st. unfold pyplot.figure. destruct (raises NewFigure); simpl.
  - apply adds_only_refl.
  - intros e He. simpl in He. apply elem_of_app in He as [Hin|Hin]; [by left|].
    apply list_elem_of_singleton in Hin as ->. by right.
Qed.

Lemma trace_close (P : event F → Prop) :
  P Close → keeps (adds_only P) pyplot.close.
Proof.
  intros HP st e He. simpl in He. apply elem_of_app in He as [Hin|Hin]; [by left|].
  apply list_elem_of_singleton in Hin as ->. by right.
Qed.

Lemma trace_for_each (P : event F → Prop) {A : Type} (xs : list A)
    (body : A → plt F unit) :
  (∀ x, x ∈ xs → keeps (adds_only P) (body x)) →
  keeps (adds_only P) (pyplot.for_each xs body).
Proof. apply keeps_for_each; [apply adds_only_refl | apply adds_only_trans]. Qed.

Lemma hull_outline_trace (X_scaled : list (list F)) (mask : list bool)
    (color : string) :
  keeps (adds_only (plots_in color)) (DataVisualizer.hull_outline X_scaled mask color).
Proof.
  unfold DataVisualizer.hull_outline.
  apply trace_bind; [apply trace_lift|]. intros points.
  apply trace_bind; [apply trace_lift|]. intros [simplices vertices].
  apply trace_bind.
  { apply trace_for_each. intros simplex _.
    repeat (apply trace_bind; [apply trace_lift|]; intros ?).
    by apply trace_call. }
  intros _. repeat (apply trace_bind; [apply trace_lift|]; intros ?).
  by apply trace_call.
Qed.

(** A cluster with at most two members: its points are scattered, no
    outline is drawn. *)
Lemma draw_cluster_small (X_scaled : list (list F)) (kmeans_labels : list nat)
    (cluster_id : nat) :
  np.sum (np.eq_mask kmeans_labels cluster_id) ≤ 2 →
  keeps (adds_only no_plot)
    (DataVisualizer.draw_cluster X_scaled kmeans_labels cluster_id).
Proof.
  intros Hsmall. unfold DataVisualizer.draw_cluster.
  repeat (apply trace_bind; [apply trace_lift|]; intros ?).
  apply trace_bind; [by apply trace_call|]. intros _.
  rewrite bool_decide_eq_false_2 by lia. apply trace_ret.
Qed.

(** Any cluster: an outline is drawn only when there are more than two
    members, and in the cluster's colour. *)
Lemma draw_cluster_trace (X_scaled : list (list F)) (kmeans_labels : list nat)
    (cluster_id : nat) :
  keeps (adds_only (λ e,
           no_plot e
           ∨ (2 < np.sum (np.eq_mask kmeans_labels cluster_id)
              ∧ plots_in (DataVisualizer.cluster_color cluster_id) e)))
    (DataVisualizer.draw_cluster X_scaled kmeans_labels cluster_id).
Proof.
  destruct (decide (2 < np.sum (np.eq_mask kmeans_labels cluster_id))) as [Hbig|Hsmall].
  - unfold DataVisualizer.draw_cluster.
    repeat (apply trace_bind; [apply trace_lift|]; intros ?).
    apply trace_bind; [apply trace_call; by left|]. intros _.
    rewrite bool_decide_eq_true_2 by done.
    apply keeps_try_except_pass.
    eapply adds_only_weaken; [|apply hull_outline_trace].
    intros e He. by right.
  - eapply adds_only_weaken; [|apply draw_cluster_small; lia].
    intros e He. by left.
Qed.

End traces.

(** ** Charts that return *)

Lemma column_total {F : Type} (k : nat) (X : list (list F)) :
  Forall (λ row, k < length row) X →
  ∃ col, column k X = Ok col ∧ length col = length X.
Proof.
  intros Hwide. unfold column.
  destruct (mapM_is_Some_2 (λ row : list F, row !! k) X) as [col Hcol].
  { eapply Forall_impl; [done|]. intros row Hrow. by apply lookup_lt_is_Some_2. }
  rewrite Hcol. exists col. split; [done|]. symmetry. by eapply length_mapM.
Qed.

Lemma masked_column_total {F : Type} (X : list (list F)) (mask : list bool) (k : nat) :
  Forall (λ row, k < length row) X → length mask = length X →
  ∃ col, masked_column X mask k = Ok col.
Proof.
  intros Hwide Hlen. unfold masked_column.
  destruct (column_total k X Hwide) as (col & -> & Hcol). simpl.
  unfold np.getitem. rewrite bool_decide_eq_true_2 by congruence. by eexists.
Qed.

Lemma extent_total {F : Type} (k : nat) (X : list (list F)) :
  X ≠ [] → Forall (λ row, k < length row) X → extent k X = Ok tt.
Proof.
  intros Hne Hwide. unfold extent.
  destruct (column_total k X Hwide) as (col & -> & Hcol). simpl.
  destruct col; [|done]. destruct X; [done|]. done.
Qed.

Section returns.
Context {F : Type} `{!Backend F}.

Lemma returns_ret {A : Type} (a : A) : returns (mret a : plt F A).
Proof. intros st. by exists a, st. Qed.

Lemma returns_lift {A : Type} (r : result A) (a : A) :
  r = Ok a → returns (pyplot.lift r : plt F A).
Proof. intros -> st. by exists a, st. Qed.

Lemma returns_bind {A B : Type} (m : plt F A) (k : A → plt F B) :
  returns m → (∀ a, returns (k a)) → returns (m ≫= k).
Proof.
  intros Hm Hk st. destruct (Hm st) as (a & st1 & Hrun).
  unfold mbind, plt_bind. rewrite Hrun. apply Hk.
Qed.

Lemma returns_call (e : event F) : raises e = None → returns (pyplot.call e).
Proof. intros He st. unfold pyplot.call. rewrite He. by eexists _, _. Qed.

Lemma returns_figure : raises NewFigure = None → returns pyplot.figure.
Proof. intros He st. unfold pyplot.figure. rewrite He. by eexists _, _. Qed.

Lemma returns_close : returns (pyplot.close : plt F unit).
Proof. intros st. by eexists _, _. Qed.

Lemma returns_try_except_pass (m : plt F unit) : returns (pyplot.try_except_pass m).
Proof. intros st. by eexists _, _. Qed.

Lemma returns_save_or_show (output_path : option string) :
  (∀ e, raises e = None) → returns (pyplot.save_or_show output_path).
Proof.
  intros He. unfold pyplot.save_or_show.
  destruct output_path as [[|c s]|]; by apply returns_call.
Qed.

Lemma returns_for_each {A : Type} (xs : list A) (body : A → plt F unit) :
  (∀ x, returns (body x)) → returns (pyplot.for_each xs body).
Proof.
  intros Hbody. induction xs as [|x xs IH]; simpl.
  - apply returns_ret.
  - apply returns_bind; [apply Hbody | by intros _].
Qed.

(** With a backend whose calls succeed, a cluster is drawn without error:
    whatever goes wrong with its hull is caught. *)
Lemma draw_cluster_returns (X_scaled : list (list F)) (kmeans_labels : list nat)
    (cluster_id : nat) :
  (∀ e, raises e = None) →
  Forall (λ row, 2 ≤ length row) X_scaled →
  length kmeans_labels = length X_scaled →
  returns (DataVisualizer.draw_cluster X_scaled kmeans_labels cluster_id).
Proof.
  intros He Hwide Hlen. unfold DataVisualizer.draw_cluster.
  destruct (masked_column_total X_scaled (np.eq_mask kmeans_labels cluster_id) 0)
    as [xs Hxs].
  { eapply Forall_impl; [done|]. simpl. lia. }
  { by rewrite length_eq_mask. }
  destruct (masked_column_total X_scaled (np.eq_mask kmeans_labels cluster_id) 1)
    as [ys Hys].
  { eapply Forall_impl; [done|]. simpl. lia. }
  { by rewrite length_eq_mask. }
  apply returns_bind; [by eapply returns_lift|]. intros xs'.
  apply returns_bind; [by eapply returns_lift|]. intros ys'.
  apply returns_bind; [by apply returns_call|]. intros _.
  case_bool_decide; [apply returns_try_except_pass | apply returns_ret].
Qed.

Lemma plot_simple_clusters_returns (X_scaled : list (list F)) (y kmeans_labels : list nat)
    (output_path : option string) :
  (∀ e, raises e = None) →
  X_scaled ≠ [] →
  Forall (λ row, 2 ≤ length row) X_scaled →
  length kmeans_labels = length X_scaled →
  returns (DataVisualizer.plot_simple_clusters X_scaled y kmeans_labels output_path).
Proof.
  intros He Hne Hwide Hlen. unfold DataVisualizer.plot_simple_clusters.
  apply returns_bind; [by apply returns_figure|]. intros _.
  apply returns_bind; [by apply returns_call|]. intros _.
  apply returns_bind.
  { apply returns_for_each. intros c. by apply draw_cluster_returns. }
  intros _. apply returns_bind; [by apply returns_call|]. intros _.
  apply returns_bind.
  { eapply returns_lift, extent_total; [done|].
    eapply Forall_impl; [done|]. simpl. lia. }
  intros _. apply returns_bind; [by apply returns_call|]. intros _.
  apply returns_bind.
  { eapply returns_lift, extent_total; [done|].
    eapply Forall_impl; [done|]. simpl. lia. }
  intros _. apply returns_bind; [by apply returns_call|]. intros _.
  apply returns_bind; [by apply returns_save_or_show|]. intros _.
  apply returns_close.
Qed.

End returns.

(** C8.  In the simplified two-cluster chart, (i) a cluster with at most
    two members has its points scattered and no outline drawn; (ii) every
    outline in the chart belongs to one of the first two clusters that has
    more than two members, and is drawn in its colour; (iii) on well-formed
    input (as many labels as points, at least one point, two coordinates
    each) and a backend whose calls succeed the chart returns without error,
    whatever the sizes of the clusters and whatever the hull computation
    does. *)
Theorem simple_chart_skips_small_hull {F : Type} `{!Backend F}
    (X_scaled : list (list F)) (y kmeans_labels : list nat)
    (output_path : option string) :
  (∀ cluster_id st xs ys color,
     np.sum (np.eq_mask kmeans_labels cluster_id) ≤ 2 →
     Plot xs ys color
       ∈ trace (DataVisualizer.draw_cluster X_scaled kmeans_labels cluster_id st).2 →
     Plot xs ys color ∈ trace st)
  ∧ (∀ st xs ys color,
       Plot xs ys color
         ∈ trace (DataVisualizer.plot_simple_clusters
                    X_scaled y kmeans_labels output_path st).2 →
       Plot xs ys color ∈ trace st
       ∨ ∃ cluster_id,
           cluster_id ∈ take 2 (np.unique kmeans_labels)
           ∧ 2 < np.sum (np.eq_mask kmeans_labels cluster_id)
           ∧ color = DataVisualizer.cluster_color cluster_id)
  ∧ ((∀ e, raises e = None) →
     X_scaled ≠ [] →
     Forall (λ row, 2 ≤ length row) X_scaled →
     length kmeans_labels = length X_scaled →
     ∀ st, (DataVisualizer.plot_simple_clusters
              X_scaled y kmeans_labels output_path st).1 = Ok tt).
Proof.
  split; [|split].
  - intros c st xs ys color Hsmall Hin.
    destruct (draw_cluster_small X_scaled kmeans_labels c Hsmall st _ Hin) as [|[]].
    done.
  - intros st xs ys color Hin.
    set (Q := λ e : event F,
           match e with
           | Plot _ _ col =>
               ∃ c, c ∈ take 2 (np.unique kmeans_labels)
                    ∧ 2 < np.sum (np.eq_mask kmeans_labels c)
                    ∧ col = DataVisualizer.cluster_color c
           | _ => True
           end).
    assert (keeps (adds_only Q)
              (DataVisualizer.plot_simple_clusters
                 X_scaled y kmeans_labels output_path)) as Hkeeps.
    { unfold DataVisualizer.plot_simple_clusters.
      apply trace_bind; [by apply trace_figure|]. intros _.
      apply trace_bind; [by apply trace_call|]. intros _.
      apply trace_bind.
      { apply trace_for_each. intros c Hc.
        eapply adds_only_weaken; [|apply draw_cluster_trace].
        intros [] He; try done. destruct He as [[]|[Hbig Hcol]].
        simpl in Hcol. by exists c. }
      intros _. apply trace_bind; [by apply trace_call|]. intros _.
      apply trace_bind; [apply trace_lift|]. intros _.
      apply trace_bind; [by apply trace_call|]. intros _.
      apply trace_bind; [apply trace_lift|]. intros _.
      apply trace_bind; [by apply trace_call|]. intros _.
      apply trace_bind; [by apply trace_save_or_show|]. intros _.
      by apply trace_close. }
    destruct (Hkeeps st _ Hin) as [|HQ]; [by left | by right].
  - intros He Hne Hwide Hlen st.
    destruct (plot_simple_clusters_returns X_scaled y kmeans_labels output_path
                He Hne Hwide Hlen st) as ([] & st' & ->).
    done.
Qed.

(** The chart of four points, three in cluster 0 and one in cluster 1:
    the outline of cluster 0 is drawn, that of cluster 1 is not, and the
    chart returns. *)
Lemma simple_chart_skips_small_hull_witness :
  np.sum (np.eq_mask chart_labels 1) ≤ 2
  ∧ (@DataVisualizer.plot_simple_clusters Z calm_backend
       chart_points chart_labels chart_labels None empty_world).1 = Ok tt
  ∧ filter (λ e, is_plot e)
      (trace (@DataVisualizer.plot_simple_clusters Z calm_backend
                chart_points chart_labels chart_labels None empty_world).2)
    = [Plot [0; 1] [0; 0] "#FF6B6B"; Plot [1; 2] [0; 1] "#FF6B6B";
       Plot [2; 0] [1; 0] "#FF6B6B"; Plot [0; 1; 2; 0] [0; 0; 1; 0] "#FF6B6B"]%Z.
Proof.
  split; [vm_compute; lia|]. split.
  - apply (@simple_chart_skips_small_hull Z calm_backend
             chart_points chart_labels chart_labels None);
      [done | done | repeat constructor | done].
  - by vm_compute.
Defined.

(** ** The loader's feature reduction and the driver *)

Section driver.
Context {F : Type} `{!Sklearn F} `{!Backend F}.
Implicit Types (self : DigitsDataLoader.t) (X : list (list F)).

Lemma reduce_rejects self X :
  pca_zero_law →
  (DigitsDataLoader.n_components self < 1
   ∨ Z.of_nat (n_features X) < DigitsDataLoader.n_components self)%Z →
  DigitsDataLoader.reduce self X = Raise ValueError.
Proof.
  intros Hzero Hbad.
  assert (∀ Y : list (list F),
            check_array Y = Raise ValueError
            ∨ (check_array Y = Ok tt ∧ n_features Y ≠ 0)) as Hcheck.
  { intros Y. unfold check_array. case_bool_decide as HY; [by left|].
    right. split; [done|]. intros Hn. apply HY. by right. }
  unfold DigitsDataLoader.reduce, sklearn.PCA_fit_transform,
    sklearn.StandardScaler_fit_transform.
  destruct (Hcheck X) as [-> | [-> HX]]; simpl; [done|].
  case_bool_decide as Hk; simpl; [|done].
  assert (DigitsDataLoader.n_components self = 0%Z) as -> by lia.
  destruct (Hcheck (pca_project (Z.to_nat 0) X)) as [-> | [_ Hn]]; simpl; [done|].
  exfalso. apply Hn, Hzero.
Qed.

Lemma load_data_Ok self (global : RandomState)
    (X_train X_test X_scaled : list (list F)) (y_train y_test y : list nat) :
  DigitsDataLoader.load_data self global
  = Ok (X_train, X_test, y_train, y_test, X_scaled, y) →
  DigitsDataLoader.reduce self load_digits.1 = Ok X_scaled
  ∧ y = load_digits.2
  ∧ DigitsDataLoader.split self X_scaled y global
    = Ok (X_train, X_test, y_train, y_test).
Proof.
  unfold DigitsDataLoader.load_data. destruct load_digits as [X0 y0]. simpl.
  destruct (DigitsDataLoader.reduce self X0) as [Xs|]; simpl; [|done].
  destruct (DigitsDataLoader.split self Xs y0 global) as [[[[a b] c] d]|] eqn:Hs;
    simpl; [|done].
  by intros [= <- <- <- <- <- <-].
Qed.

(** C7.  A component count below 1 or above the number of raw features
    makes the feature reduction fail with the library's ValueError, the
    error of an invalid configuration.  [load_data] fails with it, and a run
    with such a loader ends in an exception having done nothing but,
    possibly, create the output directory: no model was trained. *)
Theorem reduce_rejects_components self (timestamp : string)
    (global : RandomState) (st : world F) :
  pca_zero_law →
  (DigitsDataLoader.n_components self < 1
   ∨ Z.of_nat (n_features load_digits.1) < DigitsDataLoader.n_components self)%Z →
  DigitsDataLoader.reduce self load_digits.1 = Raise ValueError
  ∧ DigitsDataLoader.load_data self global = Raise ValueError
  ∧ (∃ e, (Main.run self timestamp global st).1 = Raise e)
  ∧ figures (Main.run self timestamp global st).2 = figures st
  ∧ (trace (Main.run self timestamp global st).2 = trace st
     ∨ trace (Main.run self timestamp global st).2
       = trace st ++ [Makedirs Main.output_dir]).
Proof.
  intros Hzero Hbad. pose proof (reduce_rejects self _ Hzero Hbad) as Hred.
  assert (DigitsDataLoader.load_data self global = Raise ValueError) as Hload.
  { unfold DigitsDataLoader.load_data. destruct load_digits as [X0 y0].
    simpl in Hred. by rewrite Hred. }
  split; [done|]. split; [done|].
  unfold Main.run. rewrite Hload.
  destruct output_dir_exists.
  - split; [by exists ValueError|]. split; [done | by left].
  - unfold mbind at 1, plt_bind, pyplot.call.
    destruct (raises (Makedirs Main.output_dir)) as [e|].
    + split; [by exists e|]. split; [done | by left].
    + split; [by exists ValueError|]. split; [done | by right].
Qed.

(** C10.  When a run returns, the score it reports for the classifier is
    the classifier's accuracy on the test subset, and the score it reports
    for the clusterer is the clusterer's accuracy on the train subset, the
    samples both models were fitted on; the two subsets are the reduced
    samples at positions that have none in common. *)
Theorem scores_on_different_subsets (timestamp : string) (global : RandomState)
    (st st' : world F) (r : report) :
  permutation_law →
  Main.main timestamp global st = (Ok r, st') →
  ∃ (X_train X_test X_scaled : list (list F)) (y_train y_test y : list nat)
    (log_reg : LogisticRegressionClassifier.t F) (kmeans : KMeansClusterer.t F)
    (train test : list nat),
    DigitsDataLoader.load_data DigitsDataLoader.default global
    = Ok (X_train, X_test, y_train, y_test, X_scaled, y)
    ∧ LogisticRegressionClassifier.train LogisticRegressionClassifier.init
        X_train y_train = Ok log_reg
    ∧ KMeansClusterer.train KMeansClusterer.default X_train = Ok kmeans
    ∧ LogisticRegressionClassifier.accuracy log_reg X_test y_test = Ok (acc_lr r)
    ∧ KMeansClusterer.accuracy kmeans X_train y_train = Ok (acc_km r)
    ∧ safe_indexing X_scaled train = Ok X_train
    ∧ safe_indexing y train = Ok y_train
    ∧ safe_indexing X_scaled test = Ok X_test
    ∧ safe_indexing y test = Ok y_test
    ∧ (∀ i, i ∈ train → i ∉ test).
Proof.
  intros Hlaw Hrun. unfold Main.main, Main.run in Hrun.
  apply plt_bind_Ok in Hrun as ([] & st0 & _ & Hrun).
  apply plt_bind_Ok in Hrun
    as ([[[[[X_train X_test] y_train] y_test] X_scaled] y] & st1 & Hload & Hrun).
  apply lift_Ok in Hload as [Hload ->].
  apply plt_bind_Ok in Hrun as ([] & st2 & _ & Hrun).
  apply plt_bind_Ok in Hrun as (log_reg & st3 & Hfit_lr & Hrun).
  apply lift_Ok in Hfit_lr as [Hfit_lr ->].
  apply plt_bind_Ok in Hrun as (s_lr & st4 & Hacc_lr & Hrun).
  apply lift_Ok in Hacc_lr as [Hacc_lr ->].
  apply plt_bind_Ok in Hrun as ([] & st5 & _ & Hrun).
  apply plt_bind_Ok in Hrun as (kmeans & st6 & Hfit_km & Hrun).
  apply lift_Ok in Hfit_km as [Hfit_km ->].
  apply plt_bind_Ok in Hrun as (s_km & st7 & Hacc_km & Hrun).
  apply lift_Ok in Hacc_km as [Hacc_km ->].
  apply plt_bind_Ok in Hrun as (kmeans_labels & st8 & _ & Hrun).
  apply plt_bind_Ok in Hrun as ([] & st9 & _ & Hrun).
  apply plt_bind_Ok in Hrun as ([] & st10 & _ & Hrun).
  apply plt_bind_Ok in Hrun as ([] & st11 & _ & Hrun).
  apply plt_bind_Ok in Hrun as ([] & st12 & _ & Hrun).
  injection Hrun as <- _.
  pose proof (load_data_Ok _ _ _ _ _ _ _ _ Hload) as (_ & _ & Hsplit).
  destruct (split_Ok_partition _ _ _ _ _ _ _ _ Hlaw Hsplit)
    as (train & test & _ & Hdisj & HXtr & HXte & Hytr & Hyte & _).
  by exists X_train, X_test, X_scaled, y_train, y_test, y, log_reg, kmeans, train, test.
Qed.

End driver.

Lemma toy_pca_zero_law : @pca_zero_law Z toy_sklearn.
Proof. intros X. simpl. by destruct X. Qed.

(** The toy samples have three features: four components and no
    component are both rejected, and the run with no component leaves an
    empty trace. *)
Lemma reduce_rejects_components_witness :
  @pca_zero_law Z toy_sklearn
  ∧ @DigitsDataLoader.load_data Z toy_sklearn
      (DigitsDataLoader.init 4 (Fraction (3 # 10)) (Some 42)) 0 = Raise ValueError
  ∧ @DigitsDataLoader.load_data Z toy_sklearn
      (DigitsDataLoader.init 0 (Fraction (3 # 10)) (Some 42)) 0 = Raise ValueError
  ∧ trace (@Main.run Z toy_sklearn calm_backend
             (DigitsDataLoader.init 0 (Fraction (3 # 10)) (Some 42))
             "T" 0 empty_world).2 = [].
Proof.
  split; [exact toy_pca_zero_law|]. split; [|split].
  - apply (@reduce_rejects_components Z toy_sklearn calm_backend
             (DigitsDataLoader.init 4 (Fraction (3 # 10)) (Some 42))
             "T" 0 empty_world toy_pca_zero_law).
    right. vm_compute. reflexivity.
  - apply (@reduce_rejects_components Z toy_sklearn calm_backend
             (DigitsDataLoader.init 0 (Fraction (3 # 10)) (Some 42))
             "T" 0 empty_world toy_pca_zero_law).
    left. reflexivity.
  - reflexivity.
Defined.

(** The run on the toy library: the report and where its two scores come
    from. *)
Lemma scores_on_different_subsets_witness :
  @permutation_law Z toy_sklearn
  ∧ (@Main.main Z toy_sklearn calm_backend "T" 0 empty_world).1
    = Ok {| total := 20; n_train := 14; n_test := 6;
            acc_lr := Score (3 # 6); acc_km := Score (9 # 14);
            chart := "output/classification_comparison_T.png" |}
  ∧ ∃ (X_train X_test : list (list Z)) (y_train y_test : list nat)
      (log_reg : LogisticRegressionClassifier.t Z) (kmeans : KMeansClusterer.t Z),
      LogisticRegressionClassifier.accuracy log_reg X_test y_test = Ok (Score (3 # 6))
      ∧ KMeansClusterer.accuracy kmeans X_train y_train = Ok (Score (9 # 14))
      ∧ @KMeansClusterer.train Z toy_sklearn KMeansClusterer.default X_train = Ok kmeans.
Proof.
  split; [exact toy_permutation_law|]. split; [reflexivity|].
  destruct (@scores_on_different_subsets Z toy_sklearn calm_backend "T" 0 empty_world
              (@Main.main Z toy_sklearn calm_backend "T" 0 empty_world).2
              {| total := 20; n_train := 14; n_test := 6;
                 acc_lr := Score (3 # 6); acc_km := Score (9 # 14);
                 chart := "output/classification_comparison_T.png" |}
              toy_permutation_law)
    as (X_train & X_test & X_scaled & y_train & y_test & y & log_reg & kmeans
        & train & test & _ & _ & Hkm & Hacc_lr & Hacc_km & _);
    [reflexivity|].
  by exists X_train, X_test, y_train, y_test, log_reg, kmeans.
Defined.

(** * Further properties of the models *)

(** ** Scores *)

Lemma sum_le_length (mask : list bool) : np.sum mask ≤ length mask.
Proof. unfold np.sum. apply length_filter. Qed.

(** A score is nan only for no sample at all, and otherwise lies between
    0 and 1. *)
Lemma average_range (mask : list bool) :
  match np.average mask with
  | NaN => mask = []
  | Score q => (0 <= q <= 1)%Q
  end.
Proof.
  destruct mask as [|b mask]; [done|]. unfold np.average.
  pose proof (sum_le_length (b :: mask)) as Hle.
  change (length (b :: mask)) with (S (length mask)) in *.
  generalize dependent (np.sum (b :: mask)). intros k Hle.
  unfold Qle. simpl Qnum. simpl Qden.
  rewrite <- Pos.of_nat_succ, Zpos_P_of_succ_nat. lia.
Qed.

Lemma accuracy_score_range (y_true y_pred : list nat) (s : score) :
  accuracy_score y_true y_pred = Ok s →
  match s with
  | NaN => y_true = []
  | Score q => (0 <= q <= 1)%Q
  end.
Proof.
  unfold accuracy_score. case_bool_decide as Hlen; [|done]. intros [= <-].
  pose proof (average_range (zip_with (λ t p, bool_decide (t = p)) y_true y_pred))
    as Hr.
  destruct (np.average _); [|done].
  apply zip_with_nil_inv in Hr as [->| ->]; [done|].
  by apply length_zero_iff_nil.
Qed.

Lemma sum_all_true (mask : list bool) :
  Forall (λ b, b = true) mask → np.sum mask = length mask.
Proof.
  unfold np.sum. induction 1 as [|b mask Hb _ IH]; [done|].
  rewrite filter_cons_True by done. simpl. by rewrite IH.
Qed.

(** Comparing a non-empty array with itself scores one. *)
Lemma accuracy_score_same (y : list nat) :
  y ≠ [] → ∃ q, accuracy_score y y = Ok (Score q) ∧ (q == 1)%Q.
Proof.
  intros Hne. unfold accuracy_score. rewrite bool_decide_eq_true_2 by done.
  destruct y as [|t y]; [done|]. rewrite zip_with_diag.
  set (mask := (λ x, bool_decide (x = x)) <$> t :: y).
  assert (np.sum mask = length mask) as Hsum.
  { apply sum_all_true, Forall_fmap, Forall_forall. intros x _. simpl.
    by apply bool_decide_eq_true_2. }
  assert (length mask = S (length y)) as Hlen by (unfold mask; by rewrite length_fmap).
  unfold np.average. destruct mask as [|b mask'] eqn:Hmask; [done|].
  eexists. split; [done|]. rewrite Hsum, Hlen.
  unfold Qeq. simpl Qnum. simpl Qden.
  rewrite <- Pos.of_nat_succ, Zpos_P_of_succ_nat. lia.
Qed.

(** ** When the accuracies return *)

(** With true labels of another length the loop either stops at the first
    cluster that has members (the selection raises IndexError) or, when no
    cluster below 10 has any, leaves the zeros alone. *)
Lemma for_in_vote_mismatch_cases (labels_ y ks cur : list nat) :
  length y ≠ length labels_ →
  for_in ks (KMeansClusterer.vote labels_ y) cur
  = if decide (Exists (λ k, k ∈ labels_) ks) then Raise IndexError else Ok cur.
Proof.
  intros Hlen. induction ks as [|k ks IH]; cbn [for_in].
  - destruct (decide (Exists (λ k, k ∈ labels_) [])) as [Hex|]; [|done].
    by apply Exists_nil in Hex.
  - assert (KMeansClusterer.vote labels_ y k cur
            = if decide (k ∈ labels_) then Raise IndexError else Ok cur) as ->.
    { unfold KMeansClusterer.vote.
      destruct (np.any (np.eq_mask labels_ k)) eqn:Hany.
      - apply any_eq_mask in Hany. unfold np.getitem.
        rewrite length_eq_mask, bool_decide_eq_false_2 by done.
        by rewrite decide_True.
      - apply any_eq_mask_false in Hany. by rewrite decide_False. }
    destruct (decide (k ∈ labels_)) as [Hk|Hk]; cbn [mbind result_bind].
    + destruct (decide (Exists (λ k, k ∈ labels_) (k :: ks))) as [|Hex]; [done|].
      exfalso. apply Hex. by left.
    + rewrite IH.
      destruct (decide (Exists (λ k, k ∈ labels_) ks)) as [Hex|Hex];
        destruct (decide (Exists (λ k, k ∈ labels_) (k :: ks))) as [Hex'|Hex'];
        try done.
      * exfalso. apply Hex'. by right.
      * exfalso. by apply Exists_cons in Hex' as [?|?].
Qed.

Lemma accuracy_score_Ok (y_true y_pred : list nat) :
  length y_true = length y_pred → ∃ s, accuracy_score y_true y_pred = Ok s.
Proof.
  intros Hlen. unfold accuracy_score. rewrite bool_decide_eq_true_2 by done.
  by eexists.
Qed.

(** X1.  [KMeansClusterer.accuracy] before any training raises
    AttributeError.  On a trained clusterer it returns a score exactly when
    there are as many true labels as fitted samples; otherwise it raises
    IndexError when some fitted sample lies in a cluster 0..9 and
    ValueError when none does. *)
Theorem kmeans_accuracy_outcome {F : Type} (self : KMeansClusterer.t F)
    (X : list (list F)) (y : list nat) :
  match km_fitted (KMeansClusterer.model self) with
  | None => KMeansClusterer.accuracy self X y = Raise AttributeError
  | Some f =>
      if decide (length y = length (labels_ f))
      then ∃ s, KMeansClusterer.accuracy self X y = Ok s
      else if decide (Exists (λ k, k ∈ labels_ f) (seq 0 10))
      then KMeansClusterer.accuracy self X y = Raise IndexError
      else KMeansClusterer.accuracy self X y = Raise ValueError
  end.
Proof.
  destruct (km_fitted (KMeansClusterer.model self)) as [f|] eqn:Hf.
  - rewrite (accuracy_fitted _ _ _ _ Hf).
    destruct (decide (length y = length (labels_ f))) as [Hlen|Hlen].
    + rewrite assigned_labels_eq by done. simpl.
      apply accuracy_score_Ok. by rewrite length_fmap.
    + unfold KMeansClusterer.assigned_labels.
      rewrite for_in_vote_mismatch_cases by done.
      destruct (decide (Exists (λ k, k ∈ labels_ f) (seq 0 10))); simpl; [done|].
      unfold accuracy_score. rewrite bool_decide_eq_false_2; [done|].
      unfold np.zeros_like. by rewrite length_replicate.
  - unfold KMeansClusterer.accuracy, KMeans_.get_labels_. by rewrite Hf.
Qed.

(** X2.  A score that either accuracy returns is nan only when there is no
    true label at all, and otherwise lies between 0 and 1. *)
Theorem accuracy_in_unit_interval {F : Type} (kmeans : KMeansClusterer.t F)
    (log_reg : LogisticRegressionClassifier.t F) (X : list (list F))
    (y : list nat) (s : score) :
  KMeansClusterer.accuracy kmeans X y = Ok s
  ∨ LogisticRegressionClassifier.accuracy log_reg X y = Ok s →
  match s with
  | NaN => y = []
  | Score q => (0 <= q <= 1)%Q
  end.
Proof.
  intros [Hkm|Hlr].
  - unfold KMeansClusterer.accuracy in Hkm.
    destruct (KMeans_.get_labels_ _) as [labels_|]; simpl in Hkm; [|done].
    destruct (KMeansClusterer.assigned_labels labels_ y) as [labels|];
      simpl in Hkm; [|done].
    by eapply accuracy_score_range.
  - unfold LogisticRegressionClassifier.accuracy in Hlr.
    destruct (LogisticRegressionClassifier.predict log_reg X) as [y_pred|];
      simpl in Hlr; [|done].
    by eapply accuracy_score_range.
Qed.

(** The clusterer of three samples scores 2/3 on the labels 3, 5, 7. *)
Lemma accuracy_in_unit_interval_witness :
  KMeansClusterer.accuracy (line_clusterer 2 samples_0_1_10) samples_0_1_10 [3; 5; 7]
  = Ok (Score (2 # 3))
  ∧ (0 <= 2 # 3 <= 1)%Q.
Proof.
  split; [reflexivity|].
  apply (accuracy_in_unit_interval (line_clusterer 2 samples_0_1_10)
           LogisticRegressionClassifier.init samples_0_1_10 [3; 5; 7] (Score (2 # 3))).
  left. reflexivity.
Defined.


(** ** Pure clusters, and the best labelling *)

(** X4.  The converse of purity, for true labels that fit the 32-bit array
    of assigned labels: when the mode of the true labels in the cluster of
    every sample is that sample's label, and the samples of the clusters
    that do not vote (index 10 or more) have label 0, the trained
    clusterer's accuracy is one. *)
Theorem pure_clusters_score_one {F : Type} (self : KMeansClusterer.t F)
    (f : KMeansFit F) (X : list (list F)) (y : list nat) :
  km_fitted (KMeansClusterer.model self) = Some f →
  length y = length (labels_ f) →
  y ≠ [] →
  int32_labels y →
  (∀ j c t, labels_ f !! j = Some c → y !! j = Some t →
     if decide (c < 10)
     then stats.mode (MajorityVote.members c (labels_ f) y) = Some t
     else t = 0) →
  ∃ q, KMeansClusterer.accuracy self X y = Ok (Score q) ∧ (q == 1)%Q.
Proof.
  intros Hf Hlen Hne _ Hpure.
  rewrite (accuracy_fitted _ _ _ _ Hf), assigned_labels_eq by done. simpl.
  replace ((λ c, if decide (c < 10) then label_of (labels_ f) y c else 0)
             <$> labels_ f) with y; [by apply accuracy_score_same|].
  apply list_eq_same_length with (length y); [by rewrite length_fmap | done |].
  intros j t p _ Ht Hp. rewrite list_lookup_fmap in Hp.
  destruct (labels_ f !! j) as [c|] eqn:Hc; [|done]. simpl in Hp.
  injection Hp as <-. specialize (Hpure j c t Hc Ht).
  case_decide; [|done]. unfold label_of. by rewrite Hpure.
Qed.

(** Two pure clusters. *)
Lemma pure_clusters_score_one_witness :
  length [3; 3; 7] = length (labels_ (line_fit 2 samples_0_1_10))
  ∧ int32_labels [3; 3; 7]
  ∧ ∃ q, KMeansClusterer.accuracy (line_clusterer 2 samples_0_1_10)
           samples_0_1_10 [3; 3; 7] = Ok (Score q)
         ∧ (q == 1)%Q.
Proof.
  split; [reflexivity|]. split; [by repeat constructor|].
  apply (pure_clusters_score_one (line_clusterer 2 samples_0_1_10)
           (line_fit 2 samples_0_1_10) samples_0_1_10 [3; 3; 7]);
    [reflexivity | reflexivity | done | by repeat constructor |].
  intros [|[|[|j]]] c t [= <-] [= <-]; reflexivity.
Defined.

Lemma sum_zip_hits (f : nat → nat) (clusters y : list nat) :
  np.sum (zip_with (λ t p, bool_decide (t = p)) y (f <$> clusters))
  = hits f clusters y.
Proof.
  unfold np.sum, hits. revert y.
  induction clusters as [|c cl IH]; intros [|t y]; try done.
  rewrite fmap_cons. cbn [zip_with zip]. rewrite !filter_cons. cbn [fst snd].
  destruct (decide (t = f c)) as [Heq|Hne].
  - rewrite bool_decide_eq_true_2 by done. rewrite decide_True by done.
    simpl. f_equal. apply IH.
  - rewrite bool_decide_eq_false_2 by done. rewrite decide_False by done.
    apply IH.
Qed.

(** The hits of a labelling: those outside cluster [k], and the samples of
    cluster [k] that carry the label [f k]. *)
Lemma hits_cluster (k : nat) (f : nat → nat) (clusters y : list nat) :
  hits f clusters y
  = length (filter (λ p, p.1 ≠ k ∧ p.2 = f p.1) (zip clusters y))
    + stats.count (f k) (MajorityVote.members k clusters y).
Proof.
  unfold hits, stats.count, MajorityVote.members.
  induction (zip clusters y) as [|[c t] l IH]; [done|].
  rewrite !filter_cons. cbn [fst snd].
  destruct (decide (c = k)) as [->|Hck].
  - rewrite (decide_False (P := k ≠ k ∧ _)) by (by intros [? _]).
    rewrite fmap_cons, filter_cons. cbn [snd].
    destruct (decide (t = f k)); simpl; lia.
  - destruct (decide (t = f c)) as [Htf|Htf].
    + rewrite decide_True by done. simpl. lia.
    + rewrite decide_False by (by intros [_ ?]). lia.
Qed.

(** Giving cluster [k] its mode instead of another label loses no hit. *)
Lemma hits_vote (k : nat) (f g : nat → nat) (clusters y : list nat) :
  (∀ c, c ≠ k → g c = f c) →
  g k = label_of clusters y k →
  hits f clusters y ≤ hits g clusters y.
Proof.
  intros Hother Hk. rewrite (hits_cluster k f), (hits_cluster k g).
  assert (filter (λ p, p.1 ≠ k ∧ p.2 = g p.1) (zip clusters y)
          = filter (λ p, p.1 ≠ k ∧ p.2 = f p.1) (zip clusters y)) as ->.
  { apply list_filter_iff. intros [c t]. simpl. split; intros [Hc ->]; split;
      try done; [by apply Hother | symmetry; by apply Hother]. }
  apply Nat.add_le_mono_l. rewrite Hk. unfold label_of.
  destruct (MajorityVote.members k clusters y) as [|t l] eqn:Hm; [done|].
  destruct (mode_spec (t :: l)) as (v & -> & _ & Hmax); [done|]. apply Hmax.
Qed.

(** The labels the loop assigns hit at least as often as any labelling of
    the clusters that, like the loop, gives 0 to the clusters from 10 on. *)
Lemma hits_majority (g : nat → nat) (clusters y : list nat) :
  (∀ c, 10 ≤ c → g c = 0) →
  hits g clusters y
  ≤ hits (λ c, if decide (c < 10) then label_of clusters y c else 0) clusters y.
Proof.
  intros Hg.
  assert (∀ k, k ≤ 10 →
            hits g clusters y
            ≤ hits (λ c, if decide (c < k) then label_of clusters y c else g c)
                clusters y) as Hk.
  { induction k as [|k IH]; intros Hle; [done|].
    etrans; [apply IH; lia|]. apply (hits_vote k).
    - intros c Hc. repeat case_decide; try done; lia.
    - by rewrite decide_True by lia. }
  etrans; [apply (Hk 10); lia|]. apply Nat.eq_le_incl. unfold hits. f_equal.
  apply list_filter_iff. intros [c t]. simpl.
  case_decide; [done|]. by rewrite Hg by lia.
Qed.

(** X5.  For true labels that fit the 32-bit array of assigned labels:
    among all labellings of the clusters that give label 0 to the clusters
    from 10 on, the one [accuracy] uses is a best one: no such labelling of
    the fitted cluster indices scores higher against the true labels. *)
Theorem majority_vote_is_best {F : Type} (self : KMeansClusterer.t F)
    (f : KMeansFit F) (X : list (list F)) (y : list nat) (g : nat → nat)
    (q q' : Q) :
  km_fitted (KMeansClusterer.model self) = Some f →
  int32_labels y →
  (∀ c, 10 ≤ c → g c = 0) →
  KMeansClusterer.accuracy self X y = Ok (Score q) →
  accuracy_score y (g <$> labels_ f) = Ok (Score q') →
  (q' <= q)%Q.
Proof.
  intros Hf _ Hg Hq Hq'.
  pose proof (accuracy_Ok_length _ _ _ _ _ Hf Hq) as Hlen.
  rewrite (accuracy_fitted _ _ _ _ Hf), assigned_labels_eq in Hq by done.
  simpl in Hq. unfold accuracy_score in Hq, Hq'.
  rewrite !length_fmap, bool_decide_eq_true_2 in Hq, Hq' by done.
  injection Hq as Hq. injection Hq' as Hq'.
  pose proof (hits_majority g (labels_ f) y Hg) as Hhits.
  rewrite <- !sum_zip_hits in Hhits.
  unfold np.average in Hq, Hq'.
  destruct (zip_with _ y (g <$> labels_ f)) as [|b1 m1] eqn:Hm1; [done|].
  destruct (zip_with _ y (_ <$> labels_ f)) as [|b2 m2] eqn:Hm2; [done|].
  assert (length (b1 :: m1) = length (b2 :: m2)) as Hsame.
  { rewrite <- Hm1, <- Hm2, !length_zip_with, !length_fmap. done. }
  injection Hq as <-. injection Hq' as <-.
  cbn [length] in Hsame |- *. injection Hsame as ->.
  unfold Qle. simpl Qnum. simpl Qden.
  apply Z.mul_le_mono_nonneg_r; [lia|]. lia.
Qed.

(** The labelling that gives every cluster the label 7 scores 1/3 where
    the majority vote scores 3/3. *)
Lemma majority_vote_is_best_witness :
  int32_labels [3; 3; 7]
  ∧ KMeansClusterer.accuracy (line_clusterer 2 samples_0_1_10) samples_0_1_10 [3; 3; 7]
    = Ok (Score (3 # 3))
  ∧ accuracy_score [3; 3; 7]
      ((λ c, if decide (c < 10) then 7 else 0)
         <$> labels_ (line_fit 2 samples_0_1_10))
    = Ok (Score (1 # 3))
  ∧ (1 # 3 <= 3 # 3)%Q.
Proof.
  split; [by repeat constructor|]. split; [reflexivity|]. split; [reflexivity|].
  apply (majority_vote_is_best (line_clusterer 2 samples_0_1_10)
           (line_fit 2 samples_0_1_10) samples_0_1_10 [3; 3; 7]
           (λ c, if decide (c < 10) then 7 else 0) (3 # 3) (1 # 3));
    [reflexivity | by repeat constructor | | reflexivity | reflexivity].
  intros c Hc. by rewrite decide_False by lia.
Defined.

(** * Further properties of the loader *)

Section loader_extras.
Context {F : Type} `{!Sklearn F}.
Implicit Types (self : DigitsDataLoader.t) (X : list (list F)) (y : list nat).

Lemma safe_indexing_length {A : Type} (a : list A) (indices : list nat) (r : list A) :
  safe_indexing a indices = Ok r → length r = length indices.
Proof.
  intros Hr%safe_indexing_Ok.
  by rewrite <- (length_fmap Some r), <- Hr, length_fmap.
Qed.

(** The sizes a valid [test_size] yields: at least one sample on each
    side, the test size being the fraction of the samples rounded up, or
    the count itself. *)
Lemma validate_shuffle_split_sizes (n : nat) (test_size : size) (n_train n_test : nat) :
  sklearn.validate_shuffle_split n test_size = Ok (n_train, n_test) →
  n_train = n - n_test ∧ 0 < n_test < n
  ∧ match test_size with
    | Fraction q => n_test = Z.to_nat (Qceiling (q * inject_Z (Z.of_nat n)))
    | Count z => Z.of_nat n_test = z
    end.
Proof.
  unfold sklearn.validate_shuffle_split. destruct test_size as [q|z].
  - destruct (Qle_bool q 0) eqn:H0; [done|].
    destruct (Qle_bool 1 q) eqn:H1; [done|]. simpl.
    case_bool_decide as Hn; [done|]. intros [= <- <-].
    split; [done|]. split; [|done]. split; [|lia].
    assert (0 < q)%Q as Hq.
    { apply Qnot_le_lt. intros Hle%Qle_bool_iff. congruence. }
    assert (0 < n) as Hpos by lia.
    assert (0 < q * inject_Z (Z.of_nat n))%Q as Hprod.
    { apply Qmult_lt_0_compat; [done|].
      change 0%Q with (inject_Z 0). rewrite <- Zlt_Qlt. lia. }
    pose proof (Qle_ceiling (q * inject_Z (Z.of_nat n))) as Hceil.
    pose proof (Qlt_le_trans _ _ _ Hprod Hceil) as Hlt.
    change 0%Q with (inject_Z 0) in Hlt. rewrite <- Zlt_Qlt in Hlt. lia.
  - case_bool_decide as Hz; [done|]. case_bool_decide as Hn; [done|].
    intros [= <- <-]. lia.
Qed.

(** A dataset of fewer than two samples cannot be split. *)
Lemma validate_shuffle_split_small (n : nat) (test_size : size) :
  n < 2 → sklearn.validate_shuffle_split n test_size = Raise ValueError.
Proof.
  intros Hn.
  destruct (sklearn.validate_shuffle_split n test_size) as [[n_train n_test]|e] eqn:Hv.
  - apply validate_shuffle_split_sizes in Hv. lia.
  - revert Hv. unfold sklearn.validate_shuffle_split. destruct test_size.
    + destruct (_ || _); [congruence|]. case_bool_decide; congruence.
    + repeat case_bool_decide; congruence.
Qed.

Lemma split_Ok_sizes self X y (global : RandomState)
    (X_train X_test : list (list F)) (y_train y_test : list nat) :
  permutation_law →
  DigitsDataLoader.split self X y global = Ok (X_train, X_test, y_train, y_test) →
  ∃ n_test,
    0 < n_test < length X
    ∧ length X_test = n_test ∧ length y_test = n_test
    ∧ length X_train = length X - n_test ∧ length y_train = length X - n_test
    ∧ match DigitsDataLoader.test_size self with
      | Fraction q =>
          n_test = Z.to_nat (Qceiling (q * inject_Z (Z.of_nat (length X))))
      | Count z => Z.of_nat n_test = z
      end.
Proof.
  intros Hlaw. unfold DigitsDataLoader.split, sklearn.train_test_split.
  case_bool_decide as Hlen; [|done].
  destruct (sklearn.validate_shuffle_split _ _) as [[n_train n_test]|] eqn:Hv;
    cbn; [|done].
  apply validate_shuffle_split_sizes in Hv as (-> & Hn & Hsize).
  destruct (sklearn.shuffle_split _ _ _ _) as [train test] eqn:Hs.
  assert (length test = n_test ∧ length train = length X - n_test) as [Hte Htr].
  { unfold sklearn.shuffle_split in Hs. injection Hs as <- <-.
    pose proof (Hlaw (sklearn.check_random_state
                        (DigitsDataLoader.random_state self) global) (length X))
      as Hperm.
    assert (length (permutation (sklearn.check_random_state
                      (DigitsDataLoader.random_state self) global) (length X))
            = length X) as Hpl by (by rewrite Hperm, length_seq).
    rewrite !length_take, length_drop, Hpl. lia. }
  destruct (safe_indexing X train) as [a|] eqn:Ha; simpl; [|done].
  destruct (safe_indexing X test) as [b|] eqn:Hb; simpl; [|done].
  destruct (safe_indexing y train) as [c|] eqn:Hc; simpl; [|done].
  destruct (safe_indexing y test) as [d|] eqn:Hd; simpl; [|done].
  intros [= <- <- <- <-]. exists n_test.
  apply safe_indexing_length in Ha, Hb, Hc, Hd.
  repeat split; try done; congruence || lia.
Qed.

(** X6.  A split that returns has put at least one sample on each side,
    the two subsets hold as many samples as the dataset, each subset has as
    many labels as points, and for an integer [test_size] the test subset
    has exactly that many samples. *)
Theorem split_sizes self X y (global : RandomState)
    (X_train X_test : list (list F)) (y_train y_test : list nat) :
  permutation_law →
  DigitsDataLoader.split self X y global = Ok (X_train, X_test, y_train, y_test) →
  X_train ≠ [] ∧ X_test ≠ []
  ∧ length X_train + length X_test = length X
  ∧ length y_train = length X_train ∧ length y_test = length X_test
  ∧ ∀ z, DigitsDataLoader.test_size self = Count z → Z.of_nat (length X_test) = z.
Proof.
  intros Hlaw Hsplit.
  destruct (split_Ok_sizes _ _ _ _ _ _ _ _ Hlaw Hsplit)
    as (n_test & Hn & HXte & Hyte & HXtr & Hytr & Hsize).
  split; [intros ->; simpl in HXtr; lia|].
  split; [intros ->; simpl in HXte; lia|].
  split; [lia|]. split; [lia|]. split; [lia|].
  intros z Hz. rewrite Hz in Hsize. by rewrite HXte.
Qed.

(** X7.  A dataset of fewer than two samples is never split: whatever the
    test size and the seed, the split raises ValueError. *)
Theorem split_needs_two_samples self X y (global : RandomState) :
  length X < 2 →
  DigitsDataLoader.split self X y global = Raise ValueError.
Proof.
  intros Hn. unfold DigitsDataLoader.split, sklearn.train_test_split.
  case_bool_decide; [|done]. by rewrite validate_shuffle_split_small.
Qed.

(** Reading two arrays at the same positions reads their pairs. *)
Lemma safe_indexing_zip {A B : Type} (a : list A) (b : list B) (indices : list nat)
    (ra : list A) (rb : list B) :
  safe_indexing a indices = Ok ra → safe_indexing b indices = Ok rb →
  safe_indexing (zip a b) indices = Ok (zip ra rb).
Proof.
  rewrite !safe_indexing_Ok. revert ra rb.
  induction indices as [|i idx IH]; intros [|x ra] [|z rb] Ha Hb; try done.
  rewrite !fmap_cons in Ha. rewrite !fmap_cons in Hb.
  injection Ha as Hx Ha. injection Hb as Hz Hb.
  cbn [zip zip_with]. rewrite !fmap_cons. f_equal; [|by apply IH].
  rewrite lookup_zip_with, Hx. simpl. by rewrite Hz.
Qed.

(** X8.  [load_data] keeps every label with its sample: the pairs of the
    train subset and of the test subset are, together, the pairs of the
    reduced dataset and the labels of the bundled dataset, in another
    order. *)
Theorem load_data_keeps_pairs self (global : RandomState)
    (X_train X_test X_scaled : list (list F)) (y_train y_test y : list nat) :
  permutation_law →
  DigitsDataLoader.load_data self global
  = Ok (X_train, X_test, y_train, y_test, X_scaled, y) →
  y = load_digits.2
  ∧ length X_scaled = length y
  ∧ zip X_train y_train ++ zip X_test y_test ≡ₚ zip X_scaled y.
Proof.
  intros Hlaw Hload.
  apply load_data_Ok in Hload as (_ & Hy & Hsplit). split; [done|].
  apply train_test_split_Ok in Hsplit
    as (n_test & train & test & Hlen & Hlt & Hs & HXtr & HXte & Hytr & Hyte).
  split; [done|].
  pose proof (shuffle_split_partition _ _ _ _ _ Hlaw Hlt Hs) as Hperm.
  apply (safe_indexing_Permutation (zip X_scaled y) (train ++ test)).
  - rewrite length_zip_with. by rewrite <- Hlen, Nat.min_id.
  - apply safe_indexing_app; by apply safe_indexing_zip.
Qed.

End loader_extras.

(** Six of the twenty toy samples asked for as the test subset. *)
Lemma split_sizes_witness :
  @permutation_law Z toy_sklearn
  ∧ @DigitsDataLoader.split Z toy_sklearn
      (DigitsDataLoader.init 2 (Count 6) (Some 42)) toy_digits.1 toy_digits.2 0
    = Ok (drop 8 toy_digits.1 ++ take 2 toy_digits.1, take 6 (drop 2 toy_digits.1),
          [4; 4; 5; 5; 6; 6; 7; 7; 8; 8; 9; 9; 0; 0], [1; 1; 2; 2; 3; 3])
  ∧ length (drop 8 toy_digits.1 ++ take 2 toy_digits.1)
    + length (take 6 (drop 2 toy_digits.1)) = length toy_digits.1
  ∧ Z.of_nat (length (take 6 (drop 2 toy_digits.1))) = 6%Z.
Proof.
  split; [exact toy_permutation_law|]. split; [by vm_compute|].
  destruct (@split_sizes Z toy_sklearn (DigitsDataLoader.init 2 (Count 6) (Some 42))
              toy_digits.1 toy_digits.2 0
              (drop 8 toy_digits.1 ++ take 2 toy_digits.1) (take 6 (drop 2 toy_digits.1))
              [4; 4; 5; 5; 6; 6; 7; 7; 8; 8; 9; 9; 0; 0] [1; 1; 2; 2; 3; 3]
              toy_permutation_law)
    as (_ & _ & Hsum & _ & _ & Hcount); [by vm_compute|].
  split; [exact Hsum|]. by apply Hcount.
Defined.

(** One sample. *)
Lemma split_needs_two_samples_witness :
  @DigitsDataLoader.split Z toy_sklearn DigitsDataLoader.default [[0; 0]%Z] [3] 0
  = Raise ValueError.
Proof.
  apply (@split_needs_two_samples Z toy_sklearn). simpl. lia.
Defined.

(** The default loader on the toy library. *)
Lemma load_data_keeps_pairs_witness :
  @permutation_law Z toy_sklearn
  ∧ ∃ X_train X_test X_scaled y_train y_test y,
      @DigitsDataLoader.load_data Z toy_sklearn DigitsDataLoader.default 0
      = Ok (X_train, X_test, y_train, y_test, X_scaled, y)
      ∧ zip X_train y_train ++ zip X_test y_test ≡ₚ zip X_scaled y.
Proof.
  split; [exact toy_permutation_law|].
  destruct (@DigitsDataLoader.load_data Z toy_sklearn DigitsDataLoader.default 0)
    as [[[[[[X_train X_test] y_train] y_test] X_scaled] y]|e] eqn:Hload;
    [|by vm_compute in Hload].
  exists X_train, X_test, X_scaled, y_train, y_test, y. split; [done|].
  by apply (@load_data_keeps_pairs Z toy_sklearn DigitsDataLoader.default 0
              X_train X_test X_scaled y_train y_test y toy_permutation_law).
Defined.

(** * Further properties of the charts and of the driver *)

(** ** What a run adds to the trace *)

Section extensions.
Context {F : Type} `{!Backend F}.

Lemma extends_by_refl (P : event F → Prop) (st : world F) : extends_by P st st.
Proof. exists []. by rewrite app_nil_r. Qed.

Lemma extends_by_trans (P : event F → Prop) (st1 st2 st3 : world F) :
  extends_by P st1 st2 → extends_by P st2 st3 → extends_by P st1 st3.
Proof.
  intros (ev1 & H1 & HP1) (ev2 & H2 & HP2). exists (ev1 ++ ev2).
  split; [by rewrite H2, H1, app_assoc | by apply Forall_app].
Qed.

Lemma extends_by_record (P : event F → Prop) (e : event F) (st : world F) :
  P e → extends_by P st (pyplot.record e st).
Proof. intros HP. exists [e]. split; [done | by constructor]. Qed.

Lemma extends_by_weaken (P Q : event F → Prop) (st st' : world F) :
  (∀ e, P e → Q e) → extends_by P st st' → extends_by Q st st'.
Proof.
  intros HPQ (ev & Htr & HP). exists ev. split; [done|].
  eapply Forall_impl; [done | done].
Qed.

Lemma ext_ret (P : event F → Prop) {A : Type} (a : A) :
  keeps (extends_by P) (mret a : plt F A).
Proof. apply keeps_ret, extends_by_refl. Qed.

Lemma ext_lift (P : event F → Prop) {A : Type} (r : result A) :
  keeps (extends_by P) (pyplot.lift r : plt F A).
Proof. apply keeps_lift, extends_by_refl. Qed.

Lemma ext_bind (P : event F → Prop) {A B : Type} (m : plt F A) (k : A → plt F B) :
  keeps (extends_by P) m → (∀ a, keeps (extends_by P) (k a)) →
  keeps (extends_by P) (m ≫= k).
Proof. apply keeps_bind, extends_by_trans. Qed.

Lemma ext_call (P : event F → Prop) (e : event F) :
  P e → keeps (extends_by P) (pyplot.call e).
Proof.
  intros HP. apply keeps_call; [apply extends_by_refl|].
  intros st. by apply extends_by_record.
Qed.


Lemma ext_figure (P : event F → Prop) :
  P NewFigure → keeps (extends_by P) pyplot.figure.
Proof.
  intros HP st. unfold pyplot.figure. destruct (raises NewFigure); simpl.
  - apply extends_by_refl.
  - exists [NewFigure]. split; [done | by constructor].
Qed.

Lemma ext_close (P : event F → Prop) :
  P Close → keeps (extends_by P) (pyplot.close : plt F unit).
Proof. intros HP st. exists [Close]. split; [done | by constructor]. Qed.

Lemma ext_save_or_show (P : event F → Prop) (output_path : option string) :
  P (output_event output_path) →
  keeps (extends_by P) (pyplot.save_or_show output_path).
Proof.
  unfold pyplot.save_or_show, output_event.
  destruct output_path as [[|c s]|]; apply ext_call.
Qed.

Lemma ext_for_each (P : event F → Prop) {A : Type} (xs : list A)
    (body : A → plt F unit) :
  (∀ x, keeps (extends_by P) (body x)) →
  keeps (extends_by P) (pyplot.for_each xs body).
Proof.
  intros Hbody.
  apply keeps_for_each; [apply extends_by_refl | apply extends_by_trans | auto].
Qed.

Lemma ext_try_except_pass (P : event F → Prop) (m : plt F unit) :
  keeps (extends_by P) m → keeps (extends_by P) (pyplot.try_except_pass m).
Proof. apply keeps_try_except_pass. Qed.

Lemma ext_weaken (P Q : event F → Prop) {A : Type} (m : plt F A) :
  (∀ e, P e → Q e) → keeps (extends_by P) m → keeps (extends_by Q) m.
Proof. intros HPQ Hm st. eapply extends_by_weaken; [done | apply Hm]. Qed.

Lemma finishes_bind (P : event F → Prop) (tail : list (event F)) {A B : Type}
    (m : plt F A) (k : A → plt F B) :
  keeps (extends_by P) m → (∀ a, finishes P tail (k a)) →
  finishes P tail (m ≫= k).
Proof.
  intros Hm Hk st b st' Hrun.
  apply plt_bind_Ok in Hrun as (a & st1 & Hrun & Hrest).
  pose proof (Hm st) as (ev1 & Htr1 & HP1). rewrite Hrun in Htr1. simpl in Htr1.
  destruct (Hk a st1 b st' Hrest) as (ev2 & Htr2 & HP2).
  exists (ev1 ++ ev2). split; [|by apply Forall_app].
  by rewrite Htr2, Htr1, !app_assoc.
Qed.

(** The end of every chart: it is saved or shown, then closed. *)
Lemma finishes_output (P : event F → Prop) (output_path : option string) :
  finishes P [output_event output_path; Close]
    (pyplot.save_or_show output_path;; pyplot.close).
Proof.
  intros st [] st' Hrun.
  apply plt_bind_Ok in Hrun as ([] & st1 & Hsave & Hclose).
  assert (st1 = pyplot.record (output_event output_path) st) as ->.
  { revert Hsave. unfold pyplot.save_or_show, output_event, pyplot.call.
    destruct output_path as [[|c s]|];
      match goal with |- context [raises ?e] => destruct (raises e) end;
      by intros [= <-]. }
  injection Hclose as <-. exists []. split; [|done]. simpl.
  by rewrite <- app_assoc.
Qed.


Lemma fails_with_keeps (P : event F → Prop) {A : Type} (m : plt F A) :
  keeps (extends_by P) m → fails_with P m.
Proof. intros Hm st e st' Hrun. pose proof (Hm st) as Hst. by rewrite Hrun in Hst. Qed.

(** *** Figures, for any result *)

Lemma figure_safe_releases (m : plt F unit) : releases_on_return m → figure_safe m.
Proof. done. Qed.

Lemma figure_safe_keeps {A : Type} (m : plt F A) :
  keeps same_figures m → figure_safe m.
Proof.
  intros Hm st. specialize (Hm st). unfold same_figures in Hm.
  destruct (m st) as [[a|e] st']; simpl in Hm; [done | by left].
Qed.

Lemma figure_safe_bind {A B : Type} (m : plt F A) (k : A → plt F B) :
  figure_safe m → (∀ a, figure_safe (k a)) → figure_safe (m ≫= k).
Proof.
  intros Hm Hk st. specialize (Hm st). unfold mbind, plt_bind.
  destruct (m st) as [[a|e] st1]; [|done].
  specialize (Hk a st1). rewrite Hm in Hk. done.
Qed.

End extensions.

(** Walks down a chain of binds for [keeps (extends_by P)], leaving the
    side conditions on the events. *)
Ltac ext_steps :=
  repeat first
    [ apply ext_lift
    | apply ext_ret
    | apply ext_bind; [ | intros ? ]
    | apply ext_for_each; intros ?
    | apply ext_call
    | apply ext_figure
    | apply ext_close
    | apply ext_save_or_show ].

(** ** The three charts *)

Section chart_extras.
Context {F : Type} `{!Backend F}.

Lemma hull_outline_ext (X_scaled : list (list F)) (mask : list bool) (color : string) :
  keeps (extends_by drawing) (DataVisualizer.hull_outline X_scaled mask color).
Proof.
  unfold DataVisualizer.hull_outline.
  apply ext_bind; [apply ext_lift|]. intros points.
  apply ext_bind; [apply ext_lift|]. intros [simplices vertices].
  ext_steps; exact I.
Qed.

Lemma draw_cluster_ext (X_scaled : list (list F)) (kmeans_labels : list nat)
    (cluster_id : nat) :
  keeps (extends_by drawing)
    (DataVisualizer.draw_cluster X_scaled kmeans_labels cluster_id).
Proof.
  unfold DataVisualizer.draw_cluster.
  apply ext_bind; [apply ext_lift|]. intros xs.
  apply ext_bind; [apply ext_lift|]. intros ys.
  apply ext_bind; [by apply ext_call|]. intros _.
  case_bool_decide; [|apply ext_ret].
  apply ext_try_except_pass, hull_outline_ext.
Qed.

Lemma drawing_charting (e : event F) : drawing e → charting e.
Proof. by destruct e. Qed.

Lemma charting_output (output_path : option string) :
  charting (output_event output_path : event F).
Proof. by destruct output_path as [[|c s]|]. Qed.

(** Whether they return or raise, the charts add nothing to the trace but
    drawing, saving and showing. *)
Lemma plot_combined_boundaries_ext (log_reg : LogisticRegression F) (kmeans : KMeans F)
    (X_scaled : list (list F)) (y : list nat) (output_path : option string) :
  keeps (extends_by charting)
    (DataVisualizer.plot_combined_boundaries log_reg kmeans X_scaled y output_path).
Proof.
  unfold DataVisualizer.plot_combined_boundaries.
  ext_steps; first [exact I | apply charting_output].
Qed.

Lemma plot_clusters_scatter_ext (X_scaled : list (list F)) (y kmeans_labels : list nat)
    (output_path : option string) :
  keeps (extends_by charting)
    (DataVisualizer.plot_clusters_scatter X_scaled y kmeans_labels output_path).
Proof.
  unfold DataVisualizer.plot_clusters_scatter.
  ext_steps; first [exact I | apply charting_output].
Qed.

Lemma plot_simple_clusters_ext (X_scaled : list (list F)) (y kmeans_labels : list nat)
    (output_path : option string) :
  keeps (extends_by charting)
    (DataVisualizer.plot_simple_clusters X_scaled y kmeans_labels output_path).
Proof.
  unfold DataVisualizer.plot_simple_clusters.
  apply ext_bind; [by apply ext_figure|]. intros _.
  apply ext_bind; [by apply ext_call|]. intros _.
  apply ext_bind.
  { apply ext_for_each. intros c.
    eapply ext_weaken; [apply drawing_charting | apply draw_cluster_ext]. }
  intros _. ext_steps; first [exact I | apply charting_output].
Qed.

(** X9.  A chart that returns has saved itself under the given path, or
    shown itself when there is no path or the path is the empty string, and
    closed its figure, as the last two things it did; before that it drew
    and neither saved nor showed anything. *)
Theorem chart_output_comes_last (log_reg : LogisticRegression F) (kmeans : KMeans F)
    (X_scaled : list (list F)) (y kmeans_labels : list nat)
    (output_path : option string) :
  finishes drawing [output_event output_path; Close]
    (DataVisualizer.plot_combined_boundaries log_reg kmeans X_scaled y output_path)
  ∧ finishes drawing [output_event output_path; Close]
      (DataVisualizer.plot_clusters_scatter X_scaled y kmeans_labels output_path)
  ∧ finishes drawing [output_event output_path; Close]
      (DataVisualizer.plot_simple_clusters X_scaled y kmeans_labels output_path).
Proof.
  split; [|split].
  - unfold DataVisualizer.plot_combined_boundaries.
    repeat first
      [ apply finishes_output
      | apply finishes_bind; [ext_steps; exact I | intros ?] ].
  - unfold DataVisualizer.plot_clusters_scatter.
    repeat first
      [ apply finishes_output
      | apply finishes_bind; [ext_steps; exact I | intros ?] ].
  - unfold DataVisualizer.plot_simple_clusters.
    apply finishes_bind; [by apply ext_figure|]. intros _.
    apply finishes_bind; [by apply ext_call|]. intros _.
    apply finishes_bind.
    { apply ext_for_each. intros c. apply draw_cluster_ext. }
    intros _.
    repeat first
      [ apply finishes_output
      | apply finishes_bind; [ext_steps; exact I | intros ?] ].
Qed.

End chart_extras.

Section chart_edges.
Context {F : Type} `{!Sklearn F} `{!Backend F}.

(** X10.  The charts on a dataset without samples.  The decision-region
    chart raises ValueError before it opens a figure and leaves the world
    as it was.  With a backend whose calls succeed, the scatter chart
    returns an empty chart, and the simplified chart raises ValueError at
    the axis limits, after it has opened its figure, which stays open. *)
Theorem charts_on_empty_dataset (log_reg : LogisticRegression F) (kmeans : KMeans F)
    (y : list nat) (output_path : option string) (st : world F) :
  (∀ e, raises e = None) →
  DataVisualizer.plot_combined_boundaries log_reg kmeans [] y output_path st
  = (Raise ValueError, st)
  ∧ DataVisualizer.plot_clusters_scatter [] y [] output_path st
    = (Ok tt,
       {| figures := figures st;
          trace := trace st
                   ++ [NewFigure; StyleAxes; Labels; output_event output_path; Close] |})
  ∧ DataVisualizer.plot_simple_clusters [] y [] output_path st
    = (Raise ValueError,
       {| figures := S (max_list (figures st)) :: figures st;
          trace := trace st ++ [NewFigure; StyleAxes; StyleAxes] |}).
Proof.
  intros Hcalm. split; [done|].
  assert (np.unique [] = []) as Hunique by reflexivity.
  split.
  - unfold DataVisualizer.plot_clusters_scatter. rewrite Hunique.
    unfold pyplot.save_or_show, output_event.
    destruct output_path as [[|c s]|];
      unfold mbind, plt_bind, pyplot.figure, pyplot.call, pyplot.close;
      cbn [pyplot.for_each mret plt_ret]; rewrite !Hcalm;
      unfold pyplot.record; cbn; by repeat rewrite <- app_assoc.
  - unfold DataVisualizer.plot_simple_clusters. rewrite Hunique.
    unfold mbind, plt_bind, pyplot.figure, pyplot.call.
    cbn [take pyplot.for_each mret plt_ret]. rewrite !Hcalm.
    unfold pyplot.record. cbn. by repeat rewrite <- app_assoc.
Qed.

(** X11.  A cluster that has at most two members, or whose hull
    computation raises, is drawn as its scatter and nothing else, and
    drawing it returns. *)
Theorem hull_failure_is_skipped (X_scaled : list (list F)) (kmeans_labels : list nat)
    (cluster_id : nat) (xs ys : list F) (st : world F) :
  masked_column X_scaled (np.eq_mask kmeans_labels cluster_id) 0 = Ok xs →
  masked_column X_scaled (np.eq_mask kmeans_labels cluster_id) 1 = Ok ys →
  raises (Scatter xs ys) = None →
  (np.sum (np.eq_mask kmeans_labels cluster_id) ≤ 2
   ∨ ∃ points e,
       np.getitem X_scaled (np.eq_mask kmeans_labels cluster_id) = Ok points
       ∧ ConvexHull points = Raise e) →
  DataVisualizer.draw_cluster X_scaled kmeans_labels cluster_id st
  = (Ok tt, pyplot.record (Scatter xs ys) st).
Proof.
  intros Hxs Hys Hscatter Hskip. unfold DataVisualizer.draw_cluster.
  rewrite Hxs, Hys. unfold mbind at 1 2 3, plt_bind, pyplot.lift, pyplot.call.
  rewrite Hscatter. case_bool_decide as Hbig; [|done].
  destruct Hskip as [Hsmall|(points & e & Hpoints & Hhull)]; [lia|].
  unfold pyplot.try_except_pass, DataVisualizer.hull_outline.
  rewrite Hpoints. unfold mbind at 1, plt_bind, pyplot.lift.
  unfold mbind at 1, plt_bind. by rewrite Hhull.
Qed.

Lemma plot_combined_boundaries_releases (log_reg : LogisticRegression F)
    (kmeans : KMeans F) (X_scaled : list (list F)) (y : list nat)
    (output_path : option string) :
  releases_on_return
    (DataVisualizer.plot_combined_boundaries log_reg kmeans X_scaled y output_path).
Proof. unfold DataVisualizer.plot_combined_boundaries. figures_steps. Qed.

Lemma plot_clusters_scatter_releases (X_scaled : list (list F))
    (y kmeans_labels : list nat) (output_path : option string) :
  releases_on_return
    (DataVisualizer.plot_clusters_scatter X_scaled y kmeans_labels output_path).
Proof. unfold DataVisualizer.plot_clusters_scatter. figures_steps. Qed.

Lemma plot_simple_clusters_releases (X_scaled : list (list F))
    (y kmeans_labels : list nat) (output_path : option string) :
  releases_on_return
    (DataVisualizer.plot_simple_clusters X_scaled y kmeans_labels output_path).
Proof. unfold DataVisualizer.plot_simple_clusters. figures_steps. Qed.

End chart_edges.

(** Three points on a line in one cluster, on a backend whose hull
    computation fails. *)
Lemma hull_failure_is_skipped_witness :
  @DataVisualizer.draw_cluster Z flat_backend [[0; 0]; [1; 1]; [2; 2]]%Z [0; 0; 0] 0
    empty_world
  = (Ok tt, {| figures := []; trace := [Scatter [0; 1; 2] [0; 1; 2]]%Z |}).
Proof.
  apply (@hull_failure_is_skipped Z flat_backend [[0; 0]; [1; 1]; [2; 2]]%Z [0; 0; 0] 0
           [0; 1; 2]%Z [0; 1; 2]%Z empty_world);
    [reflexivity | reflexivity | reflexivity |].
  right. by exists [[0; 0]; [1; 1]; [2; 2]]%Z, QhullError.
Defined.

(** The three charts on the calm backend. *)
Lemma charts_on_empty_dataset_witness :
  (@DataVisualizer.plot_clusters_scatter Z calm_backend [] [] [] None empty_world).1
  = Ok tt
  ∧ (@DataVisualizer.plot_simple_clusters Z calm_backend [] [] [] None empty_world).1
    = Raise ValueError
  ∧ figures (@DataVisualizer.plot_simple_clusters Z calm_backend [] [] [] None
               empty_world).2 = [1].
Proof.
  destruct (@charts_on_empty_dataset Z calm_backend
              {| max_iter := 1000; lr_fitted := None |}
              {| n_clusters := 10; km_random_state := 42; km_fitted := None |}
              [] None empty_world) as (_ & Hscatter & Hsimple); [done|].
  rewrite Hscatter, Hsimple. done.
Defined.

(** ** Training followed by scoring, and the driver *)

Section trained_clusterer.
Context {F : Type} `{!Sklearn F}.
Implicit Types (self : KMeansClusterer.t F) (f : KMeansFit F).
Implicit Types (X : list (list F)) (y : list nat).

Lemma train_Ok (self0 self : KMeansClusterer.t F) X :
  KMeansClusterer.train self0 X = Ok self →
  ∃ f, kmeans_fit (n_clusters (KMeansClusterer.model self0))
         (km_random_state (KMeansClusterer.model self0)) X = Ok f
       ∧ km_fitted (KMeansClusterer.model self) = Some f.
Proof.
  unfold KMeansClusterer.train, KMeans_.fit.
  destruct (kmeans_fit _ _ X) as [f|]; simpl; [|done].
  intros [= <-]. by exists f.
Qed.

(** On the fitted samples, with every stored index below 10, the loop of
    [accuracy] is the majority vote over what [predict] gives. *)
Lemma accuracy_on_fitted_samples self f X y :
  km_fitted (KMeansClusterer.model self) = Some f →
  length y = length X →
  labels_ f = closest_centre f <$> X →
  Forall (λ c, c < 10) (labels_ f) →
  KMeansClusterer.predict self X = Ok (closest_centre f <$> X)
  ∧ KMeansClusterer.accuracy self X y
    = MajorityVote.accuracy (closest_centre f <$> X) y.
Proof.
  intros Hf Hlen Hlabels Hlt. split.
  { unfold KMeansClusterer.predict, KMeans_.predict. by rewrite Hf. }
  rewrite (accuracy_fitted _ _ _ _ Hf).
  rewrite assigned_labels_map by (by rewrite Hlabels, length_fmap).
  simpl. rewrite <- Hlabels. unfold MajorityVote.accuracy. f_equal.
  unfold MajorityVote.predicted. apply list_fmap_ext. intros j c Hj.
  rewrite below_lookup, decide_True; [done|].
  rewrite Forall_lookup in Hlt. by eapply Hlt.
Qed.

(** X12.  Train, then score on the same samples.  When scikit-learn's
    fit stores for every fitted sample the cluster that [predict] gives it,
    a clusterer of at most ten clusters that was trained on [X] scores, on
    [X] with as many true labels, all of which fit the 32-bit array of
    assigned labels, the majority-vote accuracy of its own predictions for
    [X]. *)
Theorem trained_accuracy_is_majority_vote self0 self X y :
  kmeans_fit_law →
  0 < n_clusters (KMeansClusterer.model self0) ≤ 10 →
  KMeansClusterer.train self0 X = Ok self →
  length y = length X →
  int32_labels y →
  ∃ clusters,
    KMeansClusterer.predict self X = Ok clusters
    ∧ Forall (λ c, c < n_clusters (KMeansClusterer.model self0)) clusters
    ∧ KMeansClusterer.accuracy self X y = MajorityVote.accuracy clusters y.
Proof.
  intros Hlaw [Hpos Hten] (f & Hfit & Hf)%train_Ok Hlen _.
  destruct (Hlaw _ _ _ _ Hpos Hfit) as [Hlabels Hbelow].
  assert (Forall (λ c, c < 10) (labels_ f)) as Hlt.
  { eapply Forall_impl; [exact Hbelow|]. simpl. lia. }
  destruct (accuracy_on_fitted_samples self f X y Hf Hlen Hlabels Hlt)
    as [Hpredict Hacc].
  exists (closest_centre f <$> X). split; [done|]. split; [|done].
  by rewrite <- Hlabels.
Qed.

Lemma kmeans_accuracy_range self X y (s : score) :
  KMeansClusterer.accuracy self X y = Ok s →
  match s with
  | NaN => y = []
  | Score q => (0 <= q <= 1)%Q
  end.
Proof.
  unfold KMeansClusterer.accuracy.
  destruct (KMeans_.get_labels_ _) as [labels_|]; simpl; [|done].
  destruct (KMeansClusterer.assigned_labels labels_ y) as [labels|]; simpl; [|done].
  apply accuracy_score_range.
Qed.

Lemma classifier_accuracy_range (log_reg : LogisticRegressionClassifier.t F) X y
    (s : score) :
  LogisticRegressionClassifier.accuracy log_reg X y = Ok s →
  match s with
  | NaN => y = []
  | Score q => (0 <= q <= 1)%Q
  end.
Proof.
  unfold LogisticRegressionClassifier.accuracy.
  destruct (LogisticRegressionClassifier.predict log_reg X) as [y_pred|];
    simpl; [|done].
  apply accuracy_score_range.
Qed.

End trained_clusterer.

Lemma toy_kmeans_fit_law : @kmeans_fit_law Z toy_sklearn.
Proof.
  intros k random_state X f Hk. simpl. case_bool_decide; [done|].
  intros [= <-]. simpl. split; [done|].
  apply Forall_fmap, Forall_true. intros p. unfold line_centre. simpl.
  destruct p; lia.
Qed.

(** Two clusters trained on four samples of the line. *)
Lemma trained_accuracy_is_majority_vote_witness :
  @kmeans_fit_law Z toy_sklearn
  ∧ 0 < n_clusters (KMeansClusterer.model (@KMeansClusterer.init Z 2 42)) ≤ 10
  ∧ @KMeansClusterer.train Z toy_sklearn (KMeansClusterer.init 2 42) samples_0_1_10_12
    = Ok (line_clusterer 2 samples_0_1_10_12)
  ∧ length [3; 3; 7; 3] = length samples_0_1_10_12
  ∧ int32_labels [3; 3; 7; 3]
  ∧ ∃ clusters,
      KMeansClusterer.predict (line_clusterer 2 samples_0_1_10_12) samples_0_1_10_12
      = Ok clusters
      ∧ Forall (λ c, c < 2) clusters
      ∧ KMeansClusterer.accuracy (line_clusterer 2 samples_0_1_10_12)
          samples_0_1_10_12 [3; 3; 7; 3]
        = MajorityVote.accuracy clusters [3; 3; 7; 3].
Proof.
  split; [exact toy_kmeans_fit_law|]. split; [simpl; lia|].
  split; [reflexivity|]. split; [reflexivity|]. split; [by repeat constructor|].
  apply (@trained_accuracy_is_majority_vote Z toy_sklearn (KMeansClusterer.init 2 42)
           (line_clusterer 2 samples_0_1_10_12) samples_0_1_10_12 [3; 3; 7; 3]
           toy_kmeans_fit_law);
    [simpl; lia | reflexivity | reflexivity | by repeat constructor].
Defined.

Section driver_extras.
Context {F : Type} `{!Sklearn F} `{!Backend F}.
Implicit Types (loader : DigitsDataLoader.t).

Lemma call_Ok (e : event F) (st st' : world F) (a : unit) :
  pyplot.call e st = (Ok a, st') → st' = pyplot.record e st.
Proof. unfold pyplot.call. destruct (raises e); [done|]. by intros [= _ <-]. Qed.

(** What a run that returns has gone through. *)
Lemma run_Ok loader (timestamp : string) (global : RandomState)
    (st st' : world F) (r : report) :
  Main.run loader timestamp global st = (Ok r, st') →
  ∃ (X_train X_test X_scaled : list (list F)) (y_train y_test y : list nat)
    (log_reg : LogisticRegressionClassifier.t F) (kmeans : KMeansClusterer.t F)
    (kmeans_labels : list nat) (st0 st1 st2 st3 : world F),
    DigitsDataLoader.load_data loader global
    = Ok (X_train, X_test, y_train, y_test, X_scaled, y)
    ∧ LogisticRegressionClassifier.train LogisticRegressionClassifier.init
        X_train y_train = Ok log_reg
    ∧ LogisticRegressionClassifier.accuracy log_reg X_test y_test = Ok (acc_lr r)
    ∧ KMeansClusterer.train KMeansClusterer.default X_train = Ok kmeans
    ∧ KMeansClusterer.accuracy kmeans X_train y_train = Ok (acc_km r)
    ∧ KMeansClusterer.predict kmeans X_scaled = Ok kmeans_labels
    ∧ total r = length X_scaled
    ∧ n_train r = length X_train
    ∧ n_test r = length X_test
    ∧ chart r = Main.output_file "classification_comparison" timestamp ".png"
    ∧ (if output_dir_exists then mret tt
       else pyplot.call (Makedirs Main.output_dir)) st = (Ok tt, st0)
    ∧ DataVisualizer.plot_combined_boundaries
        (LogisticRegressionClassifier.model log_reg) (KMeansClusterer.model kmeans)
        X_scaled y (Some (Main.output_file "classification_comparison" timestamp ".png"))
        (pyplot.record FitKMeans (pyplot.record FitLogisticRegression st0))
      = (Ok tt, st1)
    ∧ DataVisualizer.plot_clusters_scatter X_scaled y kmeans_labels
        (Some (Main.output_file "clusters_scatter" timestamp ".png")) st1
      = (Ok tt, st2)
    ∧ DataVisualizer.plot_simple_clusters X_scaled y kmeans_labels
        (Some (Main.output_file "clusters_simple" timestamp ".png")) st2
      = (Ok tt, st3)
    ∧ st' = pyplot.record (WriteReport (Main.output_file "results" timestamp ".txt")) st3.
Proof.
  intros Hrun. unfold Main.run in Hrun.
  apply plt_bind_Ok in Hrun as ([] & st0 & Hdir & Hrun).
  apply plt_bind_Ok in Hrun
    as ([[[[[X_train X_test] y_train] y_test] X_scaled] y] & sa & Hload & Hrun).
  apply lift_Ok in Hload as [Hload ->].
  apply plt_bind_Ok in Hrun as ([] & sb & Hemit_lr & Hrun).
  injection Hemit_lr as <-.
  apply plt_bind_Ok in Hrun as (log_reg & sc & Hfit_lr & Hrun).
  apply lift_Ok in Hfit_lr as [Hfit_lr ->].
  apply plt_bind_Ok in Hrun as (s_lr & sd & Hacc_lr & Hrun).
  apply lift_Ok in Hacc_lr as [Hacc_lr ->].
  apply plt_bind_Ok in Hrun as ([] & se & Hemit_km & Hrun).
  injection Hemit_km as <-.
  apply plt_bind_Ok in Hrun as (kmeans & sf & Hfit_km & Hrun).
  apply lift_Ok in Hfit_km as [Hfit_km ->].
  apply plt_bind_Ok in Hrun as (s_km & sg & Hacc_km & Hrun).
  apply lift_Ok in Hacc_km as [Hacc_km ->].
  apply plt_bind_Ok in Hrun as (kmeans_labels & sh & Hlabels & Hrun).
  apply lift_Ok in Hlabels as [Hlabels ->].
  apply plt_bind_Ok in Hrun as ([] & st1 & Hchart1 & Hrun).
  apply plt_bind_Ok in Hrun as ([] & st2 & Hchart2 & Hrun).
  apply plt_bind_Ok in Hrun as ([] & st3 & Hchart3 & Hrun).
  apply plt_bind_Ok in Hrun as ([] & st4 & Hwrite%call_Ok & Hrun).
  injection Hrun as <- <-.
  exists X_train, X_test, X_scaled, y_train, y_test, y, log_reg, kmeans,
    kmeans_labels, st0, st1, st2, st3.
  by repeat (split; [done|]).
Qed.

(** X13.  The clusterer score of a run.  When the index order is a
    permutation and the fit stores the clusters that [predict] gives, the
    score a returning run reports for the clusterer is the majority-vote
    accuracy of the trained clusterer's predictions for the train subset:
    the split hands the driver as many train labels as train samples. *)
Theorem run_clusterer_score_is_majority_vote loader (timestamp : string)
    (global : RandomState) (st st' : world F) (r : report) :
  permutation_law →
  kmeans_fit_law →
  Main.run loader timestamp global st = (Ok r, st') →
  ∃ (X_train X_test X_scaled : list (list F)) (y_train y_test y : list nat)
    (kmeans : KMeansClusterer.t F) (clusters : list nat),
    DigitsDataLoader.load_data loader global
    = Ok (X_train, X_test, y_train, y_test, X_scaled, y)
    ∧ KMeansClusterer.train KMeansClusterer.default X_train = Ok kmeans
    ∧ KMeansClusterer.predict kmeans X_train = Ok clusters
    ∧ MajorityVote.accuracy clusters y_train = Ok (acc_km r).
Proof.
  intros Hperm Hlaw Hrun.
  apply run_Ok in Hrun
    as (X_train & X_test & X_scaled & y_train & y_test & y & log_reg & kmeans
        & kmeans_labels & st0 & st1 & st2 & st3 & Hload & _ & _ & Hfit & Hacc & _).
  pose proof (load_data_Ok _ _ _ _ _ _ _ _ Hload) as (_ & _ & Hsplit).
  destruct (split_Ok_sizes _ _ _ _ _ _ _ _ Hperm Hsplit)
    as (n & _ & _ & _ & HXtr & Hytr & _).
  destruct (train_Ok _ _ _ Hfit) as (f & Hfitted & Hf).
  assert (0 < 10) as Hpos by lia.
  destruct (Hlaw 10 42 X_train f Hpos Hfitted) as [Hlabels Hbelow].
  destruct (accuracy_on_fitted_samples kmeans f X_train y_train Hf)
    as [Hpredict Hvote]; [lia | done | exact Hbelow |].
  exists X_train, X_test, X_scaled, y_train, y_test, y, kmeans,
    (closest_centre f <$> X_train).
  split; [done|]. split; [done|]. split; [done|]. by rewrite <- Hvote.
Qed.

(** X14.  What the report of [main] states.  The total is the number of
    labels of the bundled dataset; the test count is three tenths of the
    total, rounded up, and lies strictly between 0 and the total; the train
    count is the rest; both scores are numbers between 0 and 1, never nan;
    the chart named is the decision-region chart of this run. *)
Theorem report_counts_and_scores (timestamp : string) (global : RandomState)
    (st st' : world F) (r : report) :
  permutation_law →
  Main.main timestamp global st = (Ok r, st') →
  total r = length load_digits.2
  ∧ n_test r = Z.to_nat (Qceiling ((3 # 10) * inject_Z (Z.of_nat (total r))))
  ∧ n_train r = total r - n_test r
  ∧ 0 < n_test r < total r
  ∧ (∃ q, acc_lr r = Score q ∧ (0 <= q <= 1)%Q)
  ∧ (∃ q, acc_km r = Score q ∧ (0 <= q <= 1)%Q)
  ∧ chart r = Main.output_file "classification_comparison" timestamp ".png".
Proof.
  intros Hperm Hrun. unfold Main.main in Hrun.
  apply run_Ok in Hrun
    as (X_train & X_test & X_scaled & y_train & y_test & y & log_reg & kmeans
        & kmeans_labels & st0 & st1 & st2 & st3 & Hload & _ & Hacc_lr & _ & Hacc_km
        & _ & -> & -> & -> & -> & _).
  pose proof (load_data_Ok _ _ _ _ _ _ _ _ Hload) as (_ & Hy & Hsplit).
  assert (length X_scaled = length y) as Hlen.
  { apply train_test_split_Ok in Hsplit as (? & ? & ? & Hlen & _). done. }
  destruct (split_Ok_sizes _ _ _ _ _ _ _ _ Hperm Hsplit)
    as (n & Hn & HXte & Hyte & HXtr & Hytr & Hsize).
  cbn in Hsize.
  split; [by rewrite Hlen, Hy|]. split; [by rewrite HXte|].
  split; [lia|]. split; [lia|]. split; [|split; [|done]].
  - apply classifier_accuracy_range in Hacc_lr.
    destruct (acc_lr r) as [|q].
    + subst y_test. simpl in Hyte. lia.
    + by exists q.
  - apply kmeans_accuracy_range in Hacc_km.
    destruct (acc_km r) as [|q].
    + subst y_train. simpl in Hytr. lia.
    + by exists q.
Qed.


Lemma figures_emit (e : event F) : keeps same_figures (pyplot.emit e).
Proof. by intros st. Qed.



Lemma makedirs_figures :
  keeps same_figures
    (if output_dir_exists then mret tt
     else pyplot.call (Makedirs Main.output_dir) : plt F unit).
Proof. destruct output_dir_exists; [apply figures_ret | apply figures_call]. Qed.


Lemma run_figure_safe loader (timestamp : string) (global : RandomState) :
  figure_safe (Main.run loader timestamp global).
Proof.
  unfold Main.run.
  apply figure_safe_bind; [apply figure_safe_keeps, makedirs_figures | intros _].
  apply figure_safe_bind; [apply figure_safe_keeps, figures_lift|].
  intros [[[[[X_train X_test] y_train] y_test] X_scaled] y].
  apply figure_safe_bind; [apply figure_safe_keeps, figures_emit | intros _].
  apply figure_safe_bind; [apply figure_safe_keeps, figures_lift | intros log_reg].
  apply figure_safe_bind; [apply figure_safe_keeps, figures_lift | intros s_lr].
  apply figure_safe_bind; [apply figure_safe_keeps, figures_emit | intros _].
  apply figure_safe_bind; [apply figure_safe_keeps, figures_lift | intros kmeans].
  apply figure_safe_bind; [apply figure_safe_keeps, figures_lift | intros s_km].
  apply figure_safe_bind; [apply figure_safe_keeps, figures_lift | intros kmeans_labels].
  apply figure_safe_bind;
    [apply figure_safe_releases, plot_combined_boundaries_releases | intros _].
  apply figure_safe_bind;
    [apply figure_safe_releases, plot_clusters_scatter_releases | intros _].
  apply figure_safe_bind;
    [apply figure_safe_releases, plot_simple_clusters_releases | intros _].
  apply figure_safe_keeps, figures_bind; [apply figures_call|].
  intros _. apply figures_ret.
Qed.

(** X15.  The order of a run that returns.  The output directory is
    created first, and only when it is missing; both models are fitted
    before anything is drawn; then come the events of the three charts; the
    report is written last, once.  No figure is left open. *)
Theorem returning_run_order loader (timestamp : string) (global : RandomState)
    (st st' : world F) (r : report) :
  Main.run loader timestamp global st = (Ok r, st') →
  figures st' = figures st
  ∧ ∃ charts,
      trace st'
      = trace st
        ++ (if output_dir_exists then [] else [Makedirs Main.output_dir])
        ++ [FitLogisticRegression; FitKMeans]
        ++ charts
        ++ [WriteReport (Main.output_file "results" timestamp ".txt")]
      ∧ Forall charting charts.
Proof.
  intros Hrun. split.
  { pose proof (run_figure_safe loader timestamp global st) as Hsafe.
    by rewrite Hrun in Hsafe. }
  apply run_Ok in Hrun
    as (X_train & X_test & X_scaled & y_train & y_test & y & log_reg & kmeans
        & kmeans_labels & st0 & st1 & st2 & st3 & _ & _ & _ & _ & _ & _ & _ & _ & _ & _
        & Hdir & Hchart1 & Hchart2 & Hchart3 & ->).
  assert (trace st0
          = trace st ++ (if output_dir_exists then [] else [Makedirs Main.output_dir]))
    as Hst0.
  { destruct output_dir_exists.
    - injection Hdir as <-. by rewrite app_nil_r.
    - by apply call_Ok in Hdir as ->. }
  pose proof (plot_combined_boundaries_ext
                (LogisticRegressionClassifier.model log_reg)
                (KMeansClusterer.model kmeans) X_scaled y
                (Some (Main.output_file "classification_comparison" timestamp ".png"))
                (pyplot.record FitKMeans (pyplot.record FitLogisticRegression st0)))
    as Hext1.
  rewrite Hchart1 in Hext1. destruct Hext1 as (ev1 & Htrace1 & Hev1).
  pose proof (plot_clusters_scatter_ext X_scaled y kmeans_labels
                (Some (Main.output_file "clusters_scatter" timestamp ".png")) st1)
    as Hext2.
  rewrite Hchart2 in Hext2. destruct Hext2 as (ev2 & Htrace2 & Hev2).
  pose proof (plot_simple_clusters_ext X_scaled y kmeans_labels
                (Some (Main.output_file "clusters_simple" timestamp ".png")) st2)
    as Hext3.
  rewrite Hchart3 in Hext3. destruct Hext3 as (ev3 & Htrace3 & Hev3).
  exists (ev1 ++ ev2 ++ ev3). split.
  - simpl in *. rewrite Htrace3, Htrace2, Htrace1, Hst0.
    by repeat rewrite <- app_assoc.
  - by repeat apply Forall_app_2.
Qed.


End driver_extras.

(** The run on the toy library: the clusterer scores 9/14, the
    majority-vote accuracy of its predictions for the train subset. *)
Lemma run_clusterer_score_is_majority_vote_witness :
  @permutation_law Z toy_sklearn
  ∧ @kmeans_fit_law Z toy_sklearn
  ∧ acc_km <$> (@Main.main Z toy_sklearn calm_backend "T" 0 empty_world).1
    = Ok (Score (9 # 14))
  ∧ ∃ (X_train : list (list Z)) (y_train : list nat) (kmeans : KMeansClusterer.t Z)
      (clusters : list nat),
      @KMeansClusterer.train Z toy_sklearn KMeansClusterer.default X_train = Ok kmeans
      ∧ KMeansClusterer.predict kmeans X_train = Ok clusters
      ∧ MajorityVote.accuracy clusters y_train = Ok (Score (9 # 14)).
Proof.
  split; [exact toy_permutation_law|]. split; [exact toy_kmeans_fit_law|].
  split; [reflexivity|].
  destruct (@run_clusterer_score_is_majority_vote Z toy_sklearn calm_backend
              DigitsDataLoader.default "T" 0 empty_world
              (@Main.main Z toy_sklearn calm_backend "T" 0 empty_world).2
              {| total := 20; n_train := 14; n_test := 6;
                 acc_lr := Score (3 # 6); acc_km := Score (9 # 14);
                 chart := "output/classification_comparison_T.png" |}
              toy_permutation_law toy_kmeans_fit_law)
    as (X_train & X_test & X_scaled & y_train & y_test & y & kmeans & clusters
        & _ & Htrain & Hpredict & Hvote);
    [reflexivity|].
  by exists X_train, y_train, kmeans, clusters.
Defined.

(** The report of the run on the toy library: twenty samples, six of them
    in the test subset. *)
Lemma report_counts_and_scores_witness :
  @permutation_law Z toy_sklearn
  ∧ (@Main.main Z toy_sklearn calm_backend "T" 0 empty_world).1
    = Ok {| total := 20; n_train := 14; n_test := 6;
            acc_lr := Score (3 # 6); acc_km := Score (9 # 14);
            chart := "output/classification_comparison_T.png" |}
  ∧ 6 = Z.to_nat (Qceiling ((3 # 10) * inject_Z (Z.of_nat 20)))
  ∧ 14 = 20 - 6.
Proof.
  split; [exact toy_permutation_law|]. split; [reflexivity|].
  destruct (@report_counts_and_scores Z toy_sklearn calm_backend "T" 0 empty_world
              (@Main.main Z toy_sklearn calm_backend "T" 0 empty_world).2
              {| total := 20; n_train := 14; n_test := 6;
                 acc_lr := Score (3 # 6); acc_km := Score (9 # 14);
                 chart := "output/classification_comparison_T.png" |}
              toy_permutation_law)
    as (_ & Htest & Htrain & _);
    [reflexivity|].
  done.
Defined.

(** The run on the toy library and the calm backend: the output
    directory exists, the report is the last of the events. *)
Lemma returning_run_order_witness :
  ∃ (r : report) (st' : world Z),
    @Main.main Z toy_sklearn calm_backend "T" 0 empty_world = (Ok r, st')
    ∧ figures st' = []
    ∧ ∃ charts,
        trace st'
        = [FitLogisticRegression; FitKMeans] ++ charts
          ++ [WriteReport "output/results_T.txt"]
        ∧ Forall charting charts.
Proof.
  exists {| total := 20; n_train := 14; n_test := 6;
            acc_lr := Score (3 # 6); acc_km := Score (9 # 14);
            chart := "output/classification_comparison_T.png" |},
    (@Main.main Z toy_sklearn calm_backend "T" 0 empty_world).2.
  split; [reflexivity|].
  apply (@returning_run_order Z toy_sklearn calm_backend DigitsDataLoader.default
           "T" 0 empty_world
           (@Main.main Z toy_sklearn calm_backend "T" 0 empty_world).2
           {| total := 20; n_train := 14; n_test := 6;
              acc_lr := Score (3 # 6); acc_km := Score (9 # 14);
              chart := "output/classification_comparison_T.png" |}).
  reflexivity.
Defined.

